(** * Amazon Q Business deployment script

    A shallow embedding of [deploy_application_for_querying_regulatory_docs.py]:
    the class [AmazonQBusiness] (configuration loader, configuration validator,
    the four provisioning steps, [deploy]) and the entry point [main].

    The script is sequential Python with three kinds of effects: printing,
    reading and writing files, and calls to the remote service through the
    boto3 client.  They are modelled by one state-and-exception monad over a
    [world] that records standard output, the file system and the log of the
    remote calls. *)

From Stdlib Require Import String Ascii ZArith List Lia.
From stdpp Require Import base option list strings pretty gmap.
Import ListNotations.

Local Open Scope string_scope.
Local Open Scope list_scope.

(** ** Python values

    The values the script handles are the ones [json.load] builds and the
    ones the service responses are made of: [None], booleans, integers,
    floats, strings, lists and dictionaries with string keys.  The script
    never computes with a float, which is kept as the text of its literal.
    A dictionary is kept as the list of its items in insertion order, the
    order [dict.items()] and [json.dump] follow.  The keys of a dictionary
    are distinct; the list does not enforce it, and a lookup takes the
    first item of the key. *)

#[local] Set Warnings "-register-all".

Inductive value : Type :=
  | VNone
  | VBool (b : bool)
  | VInt (z : Z)
  | VFloat (literal : string)
  | VStr (s : string)
  | VList (items : list value)
  | VDict (items : list (string * value)).

Abbreviation dict := (list (string * value)).

(** ** Exceptions

    Only subclasses of [Exception] are modelled (what [except Exception]
    catches); [JSONDecodeError] is a subclass of [ValueError] that the
    loader catches by name.  [ServiceError] stands for whatever the boto3
    client raises (botocore's [ClientError] and the like). *)

Inductive exn : Type :=
  | KeyError (key : string)
  | TypeError (msg : string)
  | AttributeError (msg : string)
  | ValueError (msg : string)
  | JSONDecodeError (msg : string)
  | FileNotFoundError (msg : string)
  | ServiceError (msg : string)
  | Exception (msg : string).

(** [str(e)].  For a [KeyError] it is the [repr] of the key; every key the
    script subscripts with is one of its own literals (letters only), whose
    [repr] is the key between single quotes. *)
Definition exn_str (e : exn) : string :=
  match e with
  | KeyError k => "'" ++ k ++ "'"
  | TypeError m | AttributeError m | ValueError m | JSONDecodeError m
  | FileNotFoundError m | ServiceError m | Exception m => m
  end.

Inductive result (A : Type) : Type :=
  | Ok (a : A)
  | Raise (e : exn).
Arguments Ok {A} a.
Arguments Raise {A} e.

(** ** Python primitives on values *)

Module Py.

Definition type_name (v : value) : string :=
  match v with
  | VNone => "NoneType"
  | VBool _ => "bool"
  | VInt _ => "int"
  | VFloat _ => "float"
  | VStr _ => "str"
  | VList _ => "list"
  | VDict _ => "dict"
  end.

(** [s.startswith(p)] on strings. *)
Fixpoint startswith (s p : string) {struct p} : bool :=
  match p, s with
  | EmptyString, _ => true
  | String a p', String b s' => if Ascii.eqb a b then startswith s' p' else false
  | String _ _, EmptyString => false
  end.

(** [needle in s] on strings: [needle] starts at some position of [s]. *)
Fixpoint contains (s needle : string) : bool :=
  if startswith s needle then true
  else match s with
       | EmptyString => false
       | String _ s' => contains s' needle
       end.

(** [s * n] on strings. *)
Fixpoint repeat_str (s : string) (n : nat) : string :=
  match n with
  | O => ""
  | S n' => s ++ repeat_str s n'
  end.

(** [d[k]] on the items of a dictionary. *)
Fixpoint dict_get (d : dict) (k : string) : option value :=
  match d with
  | [] => None
  | (k', v) :: d' => if String.eqb k' k then Some v else dict_get d' k
  end.

Definition has_key (d : dict) (k : string) : bool :=
  match dict_get d k with Some _ => true | None => false end.

(** [v == s] for a string literal [s]: only an equal string is equal. *)
Definition eq_str (v : value) (s : string) : bool :=
  match v with
  | VStr t => String.eqb t s
  | _ => false
  end.

(** [v[k]] for a string key [k]. *)
Definition getitem (v : value) (k : string) : result value :=
  match v with
  | VDict d =>
      match dict_get d k with
      | Some x => Ok x
      | None => Raise (KeyError k)
      end
  | VList _ => Raise (TypeError "list indices must be integers or slices, not str")
  | VStr _ => Raise (TypeError "string indices must be integers, not 'str'")
  | _ => Raise (TypeError ("'" ++ type_name v ++ "' object is not subscriptable"))
  end.

(** [v[k1][k2]...], evaluated from the left. *)
Fixpoint getpath (v : value) (ks : list string) : result value :=
  match ks with
  | [] => Ok v
  | k :: ks' =>
      match getitem v k with
      | Ok x => getpath x ks'
      | Raise e => Raise e
      end
  end.

(** [s in v] for a string [s]: substring of a string, element of a list,
    key of a dictionary; the other values are not containers. *)
Definition contains_str (v : value) (s : string) : result bool :=
  match v with
  | VStr t => Ok (contains t s)
  | VList l => Ok (existsb (fun x => eq_str x s) l)
  | VDict d => Ok (has_key d s)
  | _ => Raise (TypeError ("argument of type '" ++ type_name v ++ "' is not iterable"))
  end.

(** [v.startswith(p)]: a method of strings only. *)
Definition startswith_method (v : value) (p : string) : result bool :=
  match v with
  | VStr s => Ok (startswith s p)
  | _ => Raise (AttributeError
                  ("'" ++ type_name v ++ "' object has no attribute 'startswith'"))
  end.

End Py.

(** The error monad of pure Python expressions. *)

#[global] Instance result_ret : MRet result := fun _ a => Ok a.
#[global] Instance result_bind : MBind result := fun _ _ f r =>
  match r with
  | Ok a => f a
  | Raise e => Raise e
  end.

(** ** The world: standard output, files and the remote service

    A remote call is an operation of the qbusiness client with its keyword
    arguments.  The client is any deterministic service: its answer to a
    call may depend on the call and on all the calls made before. *)

Inductive operation : Type :=
  | CreateApplication
  | CreateIndex
  | CreateDataSource
  | StartDataSourceSyncJob.

Record call : Type := Call { operation_of : operation; kwargs : dict }.

Definition service : Type := list call -> call -> result value.

(** [stdout] holds the text of each [print], oldest first; [files] the
    regular files by path (all readable and writable); [calls] every remote
    call made so far with its outcome, oldest first. *)
Record world : Type := World {
  files : gmap string string;
  stdout : list string;
  calls : list (call * result value)
}.

(** The world a process starts in. *)
Definition boot (fs : gmap string string) : world :=
  {| files := fs; stdout := []; calls := [] |}.

Definition requests (w : world) : list call := map fst (calls w).
Definition answers (w : world) : list (result value) := map snd (calls w).

(** ** The monad of the script: state, and exceptions that keep the state *)

Definition M (A : Type) : Type := world -> result A * world.

#[global] Instance M_ret : MRet M := fun _ a w => (Ok a, w).
#[global] Instance M_bind : MBind M := fun _ _ f m w =>
  match m w with
  | (Ok a, w') => f a w'
  | (Raise e, w') => (Raise e, w')
  end.

Definition raise {A} (e : exn) : M A := fun w => (Raise e, w).

(** A pure expression evaluated inside the script. *)
Definition lift {A} (r : result A) : M A := fun w => (r, w).

(** [try: body except Exception as e: handler e]. *)
Definition try_except {A} (body : M A) (handler : exn -> M A) : M A := fun w =>
  match body w with
  | (Ok a, w') => (Ok a, w')
  | (Raise e, w') => handler e w'
  end.

(** [for x in xs: body x]. *)
Fixpoint for_each {A} (xs : list A) (body : A -> M unit) : M unit :=
  match xs with
  | [] => mret tt
  | x :: xs' => body x ≫= fun _ => for_each xs' body
  end.

Definition print (line : string) : M unit := fun w =>
  (Ok tt, {| files := files w; stdout := stdout w ++ [line]; calls := calls w |}).

(** [os.path.exists(path)]. *)
Definition path_exists (path : string) : M bool := fun w =>
  (Ok (bool_decide (is_Some (files w !! path))), w).

(** [open(path, 'r')] followed by reading the whole file. *)
Definition read_file (path : string) : M string := fun w =>
  match files w !! path with
  | Some text => (Ok text, w)
  | None => (Raise (FileNotFoundError
                      ("[Errno 2] No such file or directory: '" ++ path ++ "'")), w)
  end.

(** [open(path, 'w')]: the file is created, or truncated when it exists. *)
Definition open_w (path : string) : M unit := fun w =>
  (Ok tt, {| files := <[path := ""]> (files w); stdout := stdout w; calls := calls w |}).

(** [f.write(text)] on a file opened for writing: the text goes after what
    the file holds, which is what has been written since it was opened. *)
Definition write (path text : string) : M unit := fun w =>
  let old := default "" (files w !! path) in
  (Ok tt, {| files := <[path := (old ++ text)%string]> (files w);
             stdout := stdout w; calls := calls w |}).

(** One call of the client: the service answers, the call is logged. *)
Definition invoke (client : service) (op : operation) (args : dict) : M value := fun w =>
  let c := Call op args in
  let r := client (requests w) c in
  (r, {| files := files w; stdout := stdout w; calls := calls w ++ [(c, r)] |}).

(** ** What the script takes from the Python runtime and from boto3

    [json_loads] is [json.load] on the text of a file, [json_dumps] is
    [json.dump(_, _, indent=2)] as the text it writes, [repr] is [repr] on
    the values that are not strings, and [boto3_client] is [boto3.client]
    with the service name and the region it is given. *)

Record runtime : Type := Runtime {
  json_loads : string -> result value;
  json_dumps : value -> string;
  repr : value -> string;
  boto3_client : string -> value -> result service
}.

(** [str(v)], which an f-string applies to a value it interpolates. *)
Definition str (rt : runtime) (v : value) : string :=
  match v with
  | VStr s => s
  | _ => repr rt v
  end.

(** ** The class [AmazonQBusiness] *)

Record AmazonQBusiness : Type := Self { config : value; qbusiness : service }.

Definition required_sections : list string :=
  ["aws"; "application"; "index"; "dataSource"].

Definition account_placeholder : string := "<YOUR-ACCOUNT>".
Definition bucket_placeholder : string := "<YOUR-S3-BUCKET-NAME>".
Definition identity_center_placeholder : string := "<YOUR-IAM-IDENTITY-CENTER-ARN>".
Definition identity_center_prefix : string := "arn:aws:sso:::instance/".

Definition role_arn_error : string :=
  "Please replace '<YOUR-ACCOUNT>' in dataSource.roleArn with your actual AWS account ID".
Definition bucket_name_error : string :=
  "Please replace '<YOUR-S3-BUCKET-NAME>' in dataSource.configuration.additionalProperties.bucketName with your actual S3 bucket name".
Definition identity_center_error : string :=
  "Please replace '<YOUR-IAM-IDENTITY-CENTER-ARN>' in application.iamIdentityProviderArn with your actual IAM Identity Center ARN".
Definition arn_format_error : string := "Invalid iamIdentityProviderArn format".

Definition validation_failed : exn :=
  ValueError "Configuration validation failed. Please fix the errors and try again.".

Definition output_file : string := "deployment_output.json".

(** [errors.append(msg)] under [if flagged]. *)
Definition append_if (flagged : bool) (msg : string) (errors : list string) : list string :=
  if flagged then errors ++ [msg] else errors.

(** The three configuration fields [validate_config] reads. *)
Definition role_arn_of (cfg : value) : result value :=
  Py.getpath cfg ["dataSource"; "roleArn"].
Definition bucket_name_of (cfg : value) : result value :=
  Py.getpath cfg ["dataSource"; "configuration"; "additionalProperties"; "bucketName"].
Definition identity_provider_arn_of (cfg : value) : result value :=
  Py.getpath cfg ["application"; "iamIdentityProviderArn"].

(** [validate_config], lines 162-177: the list [errors] once the four checks
    have run, in the order of the source. *)
Definition validation_errors (cfg : value) : result (list string) :=
  let errors := [] in
  role_arn ← role_arn_of cfg;
  flagged ← Py.contains_str role_arn account_placeholder;
  let errors := append_if flagged role_arn_error errors in
  bucket_name ← bucket_name_of cfg;
  let errors := append_if (Py.eq_str bucket_name bucket_placeholder) bucket_name_error errors in
  arn ← identity_provider_arn_of cfg;
  let errors :=
    append_if (Py.eq_str arn identity_center_placeholder) identity_center_error errors in
  iam_arn ← identity_provider_arn_of cfg;
  well_formed ← Py.startswith_method iam_arn identity_center_prefix;
  let errors := append_if (negb well_formed) arn_format_error errors in
  mret errors.

(** [validate_config], lines 160-186. *)
Definition validate_config (self : AmazonQBusiness) : M bool :=
  errors ← lift (validation_errors (config self));
  match errors with
  | _ :: _ =>
      print "Configuration validation errors:";;
      for_each errors (fun error => print ("  - " ++ error));;
      mret false
  | [] =>
      print "Configuration validation passed";;
      mret true
  end.

(** The keyword arguments of the first three remote calls: a dictionary
    display, its values evaluated from the top (lines 63-72, 86-93, 107-115). *)
Definition create_application_params (app_config : value) : result dict :=
  displayName ← Py.getitem app_config "displayName";
  description ← Py.getitem app_config "description";
  identityType ← Py.getitem app_config "identityType";
  iamIdentityProviderArn ← Py.getitem app_config "iamIdentityProviderArn";
  qAppsConfiguration ← Py.getitem app_config "qAppsConfiguration";
  personalizationConfiguration ← Py.getitem app_config "personalizationConfiguration";
  attachmentsConfiguration ← Py.getitem app_config "attachmentsConfiguration";
  mret [ ("displayName", displayName);
         ("description", description);
         ("identityType", identityType);
         ("iamIdentityProviderArn", iamIdentityProviderArn);
         ("clientIdsForOIDC", VList []);
         ("qAppsConfiguration", qAppsConfiguration);
         ("personalizationConfiguration", personalizationConfiguration);
         ("attachmentsConfiguration", attachmentsConfiguration) ].

Definition create_index_params (application_id index_config : value) : result dict :=
  displayName ← Py.getitem index_config "displayName";
  description ← Py.getitem index_config "description";
  type ← Py.getitem index_config "type";
  capacityConfiguration ← Py.getitem index_config "capacityConfiguration";
  documentAttributeConfigurations ← Py.getitem index_config "documentAttributeConfigurations";
  mret [ ("applicationId", application_id);
         ("displayName", displayName);
         ("description", description);
         ("type", type);
         ("capacityConfiguration", capacityConfiguration);
         ("documentAttributeConfigurations", documentAttributeConfigurations) ].

Definition create_data_source_params (application_id index_id ds_config : value)
  : result dict :=
  displayName ← Py.getitem ds_config "displayName";
  description ← Py.getitem ds_config "description";
  configuration ← Py.getitem ds_config "configuration";
  syncSchedule ← Py.getitem ds_config "syncSchedule";
  roleArn ← Py.getitem ds_config "roleArn";
  mret [ ("applicationId", application_id);
         ("indexId", index_id);
         ("displayName", displayName);
         ("description", description);
         ("configuration", configuration);
         ("syncSchedule", syncSchedule);
         ("roleArn", roleArn) ].

Definition start_data_source_sync_params (application_id index_id data_source_id : value)
  : dict :=
  [ ("applicationId", application_id);
    ("indexId", index_id);
    ("dataSourceId", data_source_id) ].

Definition banner : string := Py.repeat_str "=" 50.

Section Script.

Variable rt : runtime.

(** [load_config], lines 137-158.  The [ValueError] of a missing section
    and the [FileNotFoundError] are raised inside the [try], so the last
    [except] clause turns them into an [Exception]. *)
Definition load_config (config_file : string) : M value :=
  try_except
    (found ← path_exists config_file;
     (if negb found
      then raise (FileNotFoundError
                    ("Configuration file '" ++ config_file ++ "' not found"))
      else mret tt);;
     text ← read_file config_file;
     cfg ← lift (json_loads rt text);
     for_each required_sections (fun section =>
       present ← lift (Py.contains_str cfg section);
       if negb present
       then raise (ValueError ("Missing required configuration section: " ++ section))
       else mret tt);;
     print ("Configuration loaded successfully from " ++ config_file);;
     mret cfg)
    (fun e =>
       match e with
       | JSONDecodeError _ =>
           raise (ValueError ("Invalid JSON in configuration file: " ++ exn_str e))
       | _ => raise (Exception ("Error loading configuration: " ++ exn_str e))
       end).

(** [__init__], lines 11-14. *)
Definition init (config_file : string) : M AmazonQBusiness :=
  cfg ← load_config config_file;
  region ← lift (Py.getpath cfg ["aws"; "region"]);
  client ← lift (boto3_client rt "qbusiness" region);
  mret {| config := cfg; qbusiness := client |}.

(** [create_application], lines 57-78. *)
Definition create_application (self : AmazonQBusiness) : M value :=
  print "Creating Amazon Q Business application...";;
  app_config ← lift (Py.getitem (config self) "application");
  params ← lift (create_application_params app_config);
  application ← invoke (qbusiness self) CreateApplication params;
  application_id ← lift (Py.getitem application "applicationId");
  print ("Application created with ID: " ++ str rt application_id);;
  mret application_id.

(** [create_index], lines 80-99. *)
Definition create_index (self : AmazonQBusiness) (application_id : value) : M value :=
  print "Creating index...";;
  index_config ← lift (Py.getitem (config self) "index");
  params ← lift (create_index_params application_id index_config);
  index ← invoke (qbusiness self) CreateIndex params;
  index_id ← lift (Py.getitem index "indexId");
  print ("Index created with ID: " ++ str rt index_id);;
  mret index_id.

(** [create_data_source], lines 101-121. *)
Definition create_data_source (self : AmazonQBusiness) (application_id index_id : value)
  : M value :=
  print "Creating S3 data source...";;
  ds_config ← lift (Py.getitem (config self) "dataSource");
  params ← lift (create_data_source_params application_id index_id ds_config);
  data_source ← invoke (qbusiness self) CreateDataSource params;
  data_source_id ← lift (Py.getitem data_source "dataSourceId");
  print ("Data source created with ID: " ++ str rt data_source_id);;
  mret data_source_id.

(** [start_data_source_sync], lines 123-135. *)
Definition start_data_source_sync (self : AmazonQBusiness)
    (application_id index_id data_source_id : value) : M value :=
  print "Starting data source synchronization...";;
  sync_response ← invoke (qbusiness self) StartDataSourceSyncJob
                    (start_data_source_sync_params application_id index_id data_source_id);
  execution_id ← lift (Py.getitem sync_response "executionId");
  print ("Sync job started with execution ID: " ++ str rt execution_id);;
  mret execution_id.

(** The body of the [try] of [deploy], lines 26-51. *)
Definition provision (self : AmazonQBusiness) : M dict :=
  application_id ← create_application self;
  index_id ← create_index self application_id;
  data_source_id ← create_data_source self application_id index_id;
  execution_id ← start_data_source_sync self application_id index_id data_source_id;
  let resources := [ ("applicationId", application_id);
                     ("indexId", index_id);
                     ("dataSourceId", data_source_id);
                     ("executionId", execution_id) ] in
  print (String "010" "" ++ banner);;
  print "Deployment completed successfully!";;
  print "Resources created:";;
  for_each resources (fun '(key, v) => print ("  " ++ key ++ ": " ++ str rt v));;
  mret resources.

(** [deploy], lines 16-55. *)
Definition deploy (self : AmazonQBusiness) : M dict :=
  print "Starting Amazon Q Business deployment...";;
  print banner;;
  valid ← validate_config self;
  (if negb valid then raise validation_failed else mret tt);;
  try_except (provision self)
    (fun e => print ("Deployment failed: " ++ exn_str e);; raise e).

(** [main], lines 188-207, as the exit status of the process: [sys.exit(1)]
    in the handler, 0 when [main] returns. *)
Definition main : world -> Z * world := fun w =>
  let body : M unit :=
    deployment ← init "config.json";
    resources ← deploy deployment;
    open_w output_file;;
    write output_file (json_dumps rt (VDict resources));;
    print (String "010" "" ++ "Resource IDs saved to " ++ output_file)
  in
  match try_except (body;; mret 0%Z)
          (fun e => print ("Error: " ++ exn_str e);; mret 1%Z) w with
  | (Ok status, w') => (status, w')
  | (Raise _, w') => (1%Z, w')
  end.

End Script.

(** ** Sample data

    Concrete configurations, services and a runtime on which the script is
    run below. *)

Module Sample.

Local Open Scope string_scope.

(** The JSON text of a value as [json.dumps(v)] writes it, for strings that
    need no escape. *)
Fixpoint json_text (v : value) : string :=
  let quoted (s : string) : string := String "034" s ++ String "034" "" in
  match v with
  | VNone => "null"
  | VBool true => "true"
  | VBool false => "false"
  | VInt z => pretty z
  | VFloat literal => literal
  | VStr s => quoted s
  | VList l =>
      "[" ++ (fix elements (l : list value) : string :=
                match l with
                | [] => ""
                | [x] => json_text x
                | x :: l' => json_text x ++ ", " ++ elements l'
                end) l ++ "]"
  | VDict d =>
      "{" ++ (fix members (d : dict) : string :=
                match d with
                | [] => ""
                | [(k, x)] => quoted k ++ ": " ++ json_text x
                | (k, x) :: d' => quoted k ++ ": " ++ json_text x ++ ", " ++ members d'
                end) d ++ "}"
  end.

(** The text [json.dump(v, f, indent=2)] writes, for strings that need no
    escape; [pad] is the indentation of the enclosing container. *)
Fixpoint json_dump (pad : string) (v : value) : string :=
  let quoted (s : string) : string := String "034" s ++ String "034" "" in
  let newline : string := String "010" "" in
  let inner : string := "  " ++ pad in
  match v with
  | VNone => "null"
  | VBool true => "true"
  | VBool false => "false"
  | VInt z => pretty z
  | VFloat literal => literal
  | VStr s => quoted s
  | VList [] => "[]"
  | VList l =>
      "[" ++ newline
        ++ (fix elements (l : list value) : string :=
              match l with
              | [] => ""
              | [x] => inner ++ json_dump inner x
              | x :: l' => inner ++ json_dump inner x ++ "," ++ newline ++ elements l'
              end) l
        ++ newline ++ pad ++ "]"
  | VDict [] => "{}"
  | VDict d =>
      "{" ++ newline
        ++ (fix members (d : dict) : string :=
              match d with
              | [] => ""
              | [(k, x)] => inner ++ quoted k ++ ": " ++ json_dump inner x
              | (k, x) :: d' =>
                  inner ++ quoted k ++ ": " ++ json_dump inner x ++ "," ++ newline
                    ++ members d'
              end) d
        ++ newline ++ pad ++ "}"
  end.

Definition application_section (arn : string) : value :=
  VDict [ ("displayName", VStr "Regulatory docs");
          ("description", VStr "Query regulatory documents");
          ("identityType", VStr "AWS_IAM_IDC");
          ("iamIdentityProviderArn", VStr arn);
          ("clientIdsForOIDC", VList [VStr "oidc-client-1"]);
          ("qAppsConfiguration", VDict [("qAppsControlMode", VStr "DISABLED")]);
          ("personalizationConfiguration",
            VDict [("personalizationControlMode", VStr "DISABLED")]);
          ("attachmentsConfiguration",
            VDict [("attachmentsControlMode", VStr "ENABLED")]) ].

Definition index_section : value :=
  VDict [ ("displayName", VStr "Regulatory index");
          ("description", VStr "Index of regulatory documents");
          ("type", VStr "STARTER");
          ("capacityConfiguration", VDict [("units", VInt 1)]);
          ("documentAttributeConfigurations", VList []) ].

Definition data_source_section (role_arn bucket : string) : value :=
  VDict [ ("displayName", VStr "Regulatory bucket");
          ("description", VStr "S3 bucket of regulatory documents");
          ("configuration",
            VDict [ ("type", VStr "S3");
                    ("additionalProperties", VDict [("bucketName", VStr bucket)]) ]);
          ("syncSchedule", VStr "");
          ("roleArn", VStr role_arn) ].

Definition configuration (role_arn bucket arn : string) : value :=
  VDict [ ("aws", VDict [("region", VStr "us-east-1")]);
          ("application", application_section arn);
          ("index", index_section);
          ("dataSource", data_source_section role_arn bucket) ].

(** A configuration with every placeholder replaced. *)
Definition ready : value :=
  configuration "arn:aws:iam::123456789012:role/QBusinessRole" "regulatory-docs"
    "arn:aws:sso:::instance/ssoins-1234567890abcdef".

(** The configuration as it is shipped: all placeholders in place. *)
Definition untouched : value :=
  configuration "arn:aws:iam::<YOUR-ACCOUNT>:role/QBusinessRole" "<YOUR-S3-BUCKET-NAME>"
    "<YOUR-IAM-IDENTITY-CENTER-ARN>".

(** Only the account placeholder is left, inside the role ARN. *)
Definition account_left : value :=
  configuration "arn:aws:iam::<YOUR-ACCOUNT>:role/QBusinessRole" "regulatory-docs"
    "arn:aws:sso:::instance/ssoins-1234567890abcdef".

(** The four sections and the region, nothing else. *)
Definition bare : value :=
  VDict [ ("aws", VDict [("region", VStr "us-east-1")]);
          ("application", VDict []);
          ("index", VDict []);
          ("dataSource", VDict []) ].

(** The four sections, the region and a role ARN with the account
    placeholder; the bucket name and the identity provider are absent. *)
Definition role_only : value :=
  VDict [ ("aws", VDict [("region", VStr "us-east-1")]);
          ("application", VDict []);
          ("index", VDict []);
          ("dataSource",
            VDict [("roleArn", VStr "arn:aws:iam::<YOUR-ACCOUNT>:role/QBusinessRole")]) ].

(** No [index] and no [dataSource] section. *)
Definition two_sections : value :=
  VDict [ ("aws", VDict [("region", VStr "us-east-1")]);
          ("application", application_section "arn:aws:sso:::instance/ssoins-1") ].

(** The account and bucket placeholders are in place and the identity
    provider ARN is [null]. *)
Definition null_provider : value :=
  VDict [ ("aws", VDict [("region", VStr "us-east-1")]);
          ("application", VDict [("iamIdentityProviderArn", VNone)]);
          ("index", index_section);
          ("dataSource",
            data_source_section "arn:aws:iam::<YOUR-ACCOUNT>:role/QBusinessRole"
              "<YOUR-S3-BUCKET-NAME>") ].

Definition documents : list value :=
  [ready; untouched; account_left; bare; role_only; two_sections; null_provider].

(** A parser that knows the documents above by their text. *)
Definition loads (text : string) : result value :=
  match List.find (fun v => String.eqb (json_text v) text) documents with
  | Some v => Ok v
  | None => Raise (JSONDecodeError "Expecting value: line 1 column 1 (char 0)")
  end.

Definition response (key id : string) : result value :=
  Ok (VDict [(key, VStr id); ("ResponseMetadata", VDict [("HTTPStatusCode", VInt 200)])]).

(** A service that allocates the identifiers A1, I1, D1, E1. *)
Definition healthy : service := fun _ c =>
  match operation_of c with
  | CreateApplication => response "applicationId" "A1"
  | CreateIndex => response "indexId" "I1"
  | CreateDataSource => response "dataSourceId" "D1"
  | StartDataSourceSyncJob => response "executionId" "E1"
  end.

(** A service on which the creation of the data source fails. *)
Definition broken_data_source : service := fun _ c =>
  match operation_of c with
  | CreateDataSource =>
      Raise (ServiceError "An error occurred (AccessDeniedException) when calling the CreateDataSource operation")
  | _ => healthy [] c
  end.

(** The runtime of the samples.  Their identifiers are strings, on which
    [str] does not need [repr]; the JSON text stands in for it. *)
Definition python (client : service) : runtime :=
  {| json_loads := loads;
     json_dumps := json_dump "";
     repr := json_text;
     boto3_client := fun _ _ => Ok client |}.

Definition disk (cfg : value) : gmap string string :=
  {[ "config.json" := json_text cfg ]}.

End Sample.

(** ** Vocabulary of the specification *)

(** [needle] occurs in [s]. *)
Definition substring (needle s : string) : Prop :=
  exists before after : string, s = (before ++ needle ++ after)%string.

(** [s] begins with [p]. *)
Definition has_prefix (p s : string) : Prop :=
  exists rest : string, s = (p ++ rest)%string.

(** Every violation among the four checks, in the order of the checks, for
    a role ARN [r], a bucket name [b] and an identity provider ARN [a]. *)
Definition all_violations (r : string) (b : value) (a : string) : list string :=
  map snd
    (List.filter fst
       [ (Py.contains r account_placeholder, role_arn_error);
         (Py.eq_str b bucket_placeholder, bucket_name_error);
         (String.eqb a identity_center_placeholder, identity_center_error);
         (negb (Py.startswith a identity_center_prefix), arn_format_error) ]).

(** What [validate_config] prints for a list of errors. *)
Definition report (errors : list string) : list string :=
  match errors with
  | [] => ["Configuration validation passed"]
  | _ :: _ =>
      "Configuration validation errors:" :: map (fun error => "  - " ++ error)%string errors
  end.

(** The verdict [validate_config] returns for a list of errors. *)
Definition verdict (errors : list string) : bool :=
  match errors with
  | [] => true
  | _ :: _ => false
  end.

(** The first required section that the items of a document lack. *)
Definition first_absent (items : dict) : option string :=
  List.find (fun section => negb (Py.has_key items section)) required_sections.

(** The world after more lines were printed. *)
Definition printed (w : world) (lines : list string) : world :=
  {| files := files w; stdout := stdout w ++ lines; calls := calls w |}.

(** A computation that leaves a component of the world as it found it,
    whether it returns or raises. *)
Definition keeps {A B} (component : world -> B) (m : M A) : Prop :=
  forall w : world, component (m w).2 = component w.

(** The keyword arguments of each creation call as the configuration
    gives them, and the identifier read from an answer. *)
Definition application_request (cfg : value) : result dict :=
  app_config ← Py.getitem cfg "application"; create_application_params app_config.

Definition index_request (cfg application_id : value) : result dict :=
  index_config ← Py.getitem cfg "index"; create_index_params application_id index_config.

Definition data_source_request (cfg application_id index_id : value) : result dict :=
  ds_config ← Py.getitem cfg "dataSource";
  create_data_source_params application_id index_id ds_config.

Definition identifier (key : string) (answer : result value) : result value :=
  response ← answer; Py.getitem response key.

Definition resources_of (application_id index_id data_source_id execution_id : value)
  : dict :=
  [ ("applicationId", application_id);
    ("indexId", index_id);
    ("dataSourceId", data_source_id);
    ("executionId", execution_id) ].

(** The runs of the provisioning sequence on a configuration: the remote
    calls made, each with its answer, and the outcome.  A run stops at the
    first step that raises, be it the building of the arguments, the call
    or the reading of the identifier in the answer. *)
Inductive provisioning (cfg : value) : list (call * result value) -> result dict -> Prop :=
  | stops_before_application e :
      application_request cfg = Raise e ->
      provisioning cfg [] (Raise e)
  | stops_after_application p1 a1 e :
      application_request cfg = Ok p1 ->
      (application_id ← identifier "applicationId" a1;
       index_request cfg application_id) = Raise e ->
      provisioning cfg [(Call CreateApplication p1, a1)] (Raise e)
  | stops_after_index p1 r1 application_id p2 a2 e :
      application_request cfg = Ok p1 ->
      Py.getitem r1 "applicationId" = Ok application_id ->
      index_request cfg application_id = Ok p2 ->
      (index_id ← identifier "indexId" a2;
       data_source_request cfg application_id index_id) = Raise e ->
      provisioning cfg
        [(Call CreateApplication p1, Ok r1); (Call CreateIndex p2, a2)] (Raise e)
  | stops_after_data_source p1 r1 application_id p2 r2 index_id p3 a3 e :
      application_request cfg = Ok p1 ->
      Py.getitem r1 "applicationId" = Ok application_id ->
      index_request cfg application_id = Ok p2 ->
      Py.getitem r2 "indexId" = Ok index_id ->
      data_source_request cfg application_id index_id = Ok p3 ->
      identifier "dataSourceId" a3 = Raise e ->
      provisioning cfg
        [(Call CreateApplication p1, Ok r1); (Call CreateIndex p2, Ok r2);
         (Call CreateDataSource p3, a3)] (Raise e)
  | reaches_sync p1 r1 application_id p2 r2 index_id p3 r3 data_source_id a4 :
      application_request cfg = Ok p1 ->
      Py.getitem r1 "applicationId" = Ok application_id ->
      index_request cfg application_id = Ok p2 ->
      Py.getitem r2 "indexId" = Ok index_id ->
      data_source_request cfg application_id index_id = Ok p3 ->
      Py.getitem r3 "dataSourceId" = Ok data_source_id ->
      provisioning cfg
        [(Call CreateApplication p1, Ok r1); (Call CreateIndex p2, Ok r2);
         (Call CreateDataSource p3, Ok r3);
         (Call StartDataSourceSyncJob
            (start_data_source_sync_params application_id index_id data_source_id), a4)]
        (execution_id ← identifier "executionId" a4;
         Ok (resources_of application_id index_id data_source_id execution_id)).

(** The fields each creation call copies from its section, in the order the
    source reads them, and the first of them that a section lacks. *)
Definition application_fields : list string :=
  [ "displayName"; "description"; "identityType"; "iamIdentityProviderArn";
    "qAppsConfiguration"; "personalizationConfiguration"; "attachmentsConfiguration" ].

Definition index_fields : list string :=
  [ "displayName"; "description"; "type"; "capacityConfiguration";
    "documentAttributeConfigurations" ].

Definition data_source_fields : list string :=
  [ "displayName"; "description"; "configuration"; "syncSchedule"; "roleArn" ].

Definition first_missing (fields : list string) (items : dict) : option string :=
  List.find (fun field => negb (Py.has_key items field)) fields.

(** The order in which the service is ever called. *)
Definition call_order : list operation :=
  [CreateApplication; CreateIndex; CreateDataSource; StartDataSourceSyncJob].

(** The values that support [in]. *)
Definition is_container (v : value) : bool :=
  match v with
  | VStr _ | VList _ | VDict _ => true
  | _ => false
  end.

Definition is_dict (v : value) : bool :=
  match v with
  | VDict _ => true
  | _ => false
  end.

(** More sample data: documents and services at the edges. *)
Module Edge.

(** A document that is a list of the four section names. *)
Definition names_only : value :=
  VList [VStr "aws"; VStr "application"; VStr "index"; VStr "dataSource"].

(** [Sample.ready] with an empty index section. *)
Definition empty_index : value :=
  VDict [ ("aws", VDict [("region", VStr "us-east-1")]);
          ("application",
            Sample.application_section "arn:aws:sso:::instance/ssoins-1234567890abcdef");
          ("index", VDict []);
          ("dataSource",
            Sample.data_source_section "arn:aws:iam::123456789012:role/QBusinessRole"
              "regulatory-docs") ].

(** [Sample.ready] with an application section that has no description. *)
Definition no_description : value :=
  VDict [ ("aws", VDict [("region", VStr "us-east-1")]);
          ("application", VDict [("displayName", VStr "Regulatory docs")]);
          ("index", Sample.index_section);
          ("dataSource",
            Sample.data_source_section "arn:aws:iam::123456789012:role/QBusinessRole"
              "regulatory-docs") ].

(** [Sample.ready] with a role ARN that is [null]. *)
Definition null_role : value :=
  VDict [ ("aws", VDict [("region", VStr "us-east-1")]);
          ("application",
            Sample.application_section "arn:aws:sso:::instance/ssoins-1234567890abcdef");
          ("index", Sample.index_section);
          ("dataSource", VDict [("roleArn", VNone)]) ].

(** The four sections, without a region. *)
Definition no_region : value :=
  VDict [ ("aws", VDict []); ("application", VDict []);
          ("index", VDict []); ("dataSource", VDict []) ].

(** A parser that knows the given documents by their text. *)
Definition loads (documents : list value) (text : string) : result value :=
  match List.find (fun v => String.eqb (Sample.json_text v) text) documents with
  | Some v => Ok v
  | None => Raise (JSONDecodeError "Expecting value: line 1 column 1 (char 0)")
  end.

Definition python (documents : list value) (client : service) : runtime :=
  {| json_loads := loads documents;
     json_dumps := Sample.json_dump "";
     repr := Sample.json_text;
     boto3_client := fun _ _ => Ok client |}.

(** A service whose answers carry no identifier. *)
Definition forgetful : service := fun _ _ =>
  Ok (VDict [("ResponseMetadata", VDict [("HTTPStatusCode", VInt 200)])]).

(** A service that refuses every call. *)
Definition down : service := fun _ _ =>
  Raise (ServiceError "Could not connect to the endpoint URL").

End Edge.

(** * Properties *)

(** ** Strings *)

Lemma append_cons (a : ascii) (s t : string) :
  (String a s ++ t)%string = String a (s ++ t)%string.
Proof. reflexivity. Qed.

Lemma append_empty (t : string) : ("" ++ t)%string = t.
Proof. reflexivity. Qed.

Lemma startswith_spec (p s : string) :
  Py.startswith s p = true <-> has_prefix p s.
Proof.
  unfold has_prefix.
  revert s; induction p as [|a p IH]; intros s; simpl.
  - split; [intros _; exists s; reflexivity | reflexivity].
  - setoid_rewrite append_cons. destruct s as [|b s].
    + split; [discriminate | intros [rest H]; discriminate].
    + destruct (Ascii.eqb_spec a b) as [->|Hab].
      * rewrite IH. split; intros [rest H]; exists rest; congruence.
      * split; [discriminate | intros [rest H]; congruence].
Qed.

Lemma contains_here (needle s : string) :
  Py.startswith s needle = true -> substring needle s.
Proof.
  intros [rest E]%startswith_spec. exists ""%string, rest. now rewrite append_empty.
Qed.

Lemma contains_spec (needle s : string) :
  Py.contains s needle = true <-> substring needle s.
Proof.
  induction s as [|b s IH]; simpl.
  - destruct (Py.startswith "" needle) eqn:E.
    + split; [intros _ | reflexivity]. now apply contains_here.
    + split; [discriminate | intros (before & after & H)].
      destruct before; [|rewrite append_cons in H; discriminate].
      rewrite append_empty in H.
      assert (Py.startswith "" needle = true) by (apply startswith_spec; now exists after).
      congruence.
  - destruct (Py.startswith (String b s) needle) eqn:E.
    + split; [intros _ | reflexivity]. now apply contains_here.
    + rewrite IH. split; intros (before & after & H).
      * exists (String b before), after. rewrite append_cons. now rewrite H.
      * destruct before as [|c before].
        -- rewrite append_empty in H.
           assert (Py.startswith (String b s) needle = true)
             by (apply startswith_spec; now exists after).
           congruence.
        -- rewrite append_cons in H. inversion H; subst. now exists before, after.
Qed.

Lemma eq_str_true (v : value) (s : string) : Py.eq_str v s = true <-> v = VStr s.
Proof.
  destruct v; simpl; try (split; [discriminate | intros H; discriminate]).
  rewrite String.eqb_eq. split; [now intros -> | now intros [= ->]].
Qed.

Lemma eq_str_false (v : value) (s : string) : Py.eq_str v s = false <-> v <> VStr s.
Proof.
  rewrite <- eq_str_true. destruct (Py.eq_str v s); split; congruence.
Qed.

(** ** Running the monad *)

Lemma run_bind {A B} (m : M A) (f : A -> M B) (w : world) :
  (m ≫= f) w = match m w with
               | (Ok a, w') => f a w'
               | (Raise e, w') => (Raise e, w')
               end.
Proof. reflexivity. Qed.

Lemma printed_nil (w : world) : printed w [] = w.
Proof. destruct w; unfold printed; simpl. now rewrite app_nil_r. Qed.

Lemma printed_printed (w : world) (l1 l2 : list string) :
  printed (printed w l1) l2 = printed w (l1 ++ l2).
Proof. unfold printed; simpl. now rewrite app_assoc. Qed.

Lemma print_run (line : string) (w : world) : print line w = (Ok tt, printed w [line]).
Proof. reflexivity. Qed.

Lemma for_each_print (f : string -> string) (lines : list string) (w : world) :
  for_each lines (fun line => print (f line)) w = (Ok tt, printed w (map f lines)).
Proof.
  revert w; induction lines as [|line lines IH]; intros w; simpl.
  - now rewrite printed_nil.
  - rewrite run_bind, print_run, IH, printed_printed. reflexivity.
Qed.

(** ** The configuration validator *)

Lemma append_if_mono (flagged : bool) (msg m : string) (errors : list string) :
  In m errors -> In m (append_if flagged msg errors).
Proof.
  intros H. unfold append_if. destruct flagged; [|exact H]. apply in_or_app. now left.
Qed.

(** The four checks on a configuration whose three fields can be read,
    the role ARN supporting [in] and the identity provider ARN being a
    string: no check raises, and each one decides on its own whether its
    message is appended. *)
Lemma validation_errors_run (cfg r b : value) (a : string) (flagged : bool) :
  role_arn_of cfg = Ok r ->
  Py.contains_str r account_placeholder = Ok flagged ->
  bucket_name_of cfg = Ok b ->
  identity_provider_arn_of cfg = Ok (VStr a) ->
  validation_errors cfg =
    Ok (append_if (negb (Py.startswith a identity_center_prefix)) arn_format_error
         (append_if (String.eqb a identity_center_placeholder) identity_center_error
           (append_if (Py.eq_str b bucket_placeholder) bucket_name_error
             (append_if flagged role_arn_error [])))).
Proof.
  intros Hr Hin Hb Ha. unfold validation_errors.
  rewrite Hr; simpl. rewrite Hin; simpl. rewrite Hb; simpl. rewrite Ha; simpl.
  reflexivity.
Qed.

Lemma validation_errors_strings (cfg b : value) (r a : string) :
  role_arn_of cfg = Ok (VStr r) ->
  bucket_name_of cfg = Ok b ->
  identity_provider_arn_of cfg = Ok (VStr a) ->
  validation_errors cfg = Ok (all_violations r b a).
Proof.
  intros Hr Hb Ha.
  rewrite (validation_errors_run cfg (VStr r) b a (Py.contains r account_placeholder))
    by (assumption || reflexivity).
  unfold all_violations.
  destruct (Py.contains r account_placeholder), (Py.eq_str b bucket_placeholder),
    (String.eqb a identity_center_placeholder),
    (Py.startswith a identity_center_prefix); reflexivity.
Qed.

(** [validate_config] once the list of errors is known. *)
Lemma validate_config_run (self : AmazonQBusiness) (w : world) (errors : list string) :
  validation_errors (config self) = Ok errors ->
  validate_config self w = (Ok (verdict errors), printed w (report errors)).
Proof.
  intros H. unfold validate_config. rewrite run_bind. unfold lift. rewrite H.
  destruct errors as [|e errors]; [reflexivity|].
  rewrite run_bind, print_run, run_bind.
  rewrite (for_each_print (fun error => ("  - " ++ error)%string)).
  rewrite printed_printed. reflexivity.
Qed.

Lemma validate_config_raises (self : AmazonQBusiness) (w : world) (e : exn) :
  validation_errors (config self) = Raise e ->
  validate_config self w = (Raise e, w).
Proof.
  intros H. unfold validate_config. rewrite run_bind. unfold lift. now rewrite H.
Qed.

(** A role ARN with the account placeholder never lets the validator
    accept: it reports, or it raises on a later field. *)
Lemma role_placeholder_rejected (cfg : value) (r : string) (errors : list string) :
  role_arn_of cfg = Ok (VStr r) ->
  Py.contains r account_placeholder = true ->
  validation_errors cfg = Ok errors ->
  In role_arn_error errors.
Proof.
  intros Hr Hin. unfold validation_errors. rewrite Hr; simpl. rewrite Hin; simpl.
  destruct (bucket_name_of cfg) as [b|e]; simpl; [|discriminate].
  destruct (identity_provider_arn_of cfg) as [a|e]; simpl; [|discriminate].
  destruct (Py.startswith_method a identity_center_prefix) as [ok|e]; simpl; [|discriminate].
  intros [= <-]. do 3 apply append_if_mono. now left.
Qed.

(** A message is among the violations exactly when its own check flagged. *)
Lemma in_violations (c1 c2 c3 c4 : bool) (m1 m2 m3 m4 : string) :
  m1 <> m2 -> m1 <> m3 -> m1 <> m4 -> m2 <> m3 -> m2 <> m4 -> m3 <> m4 ->
  let errors := map snd (List.filter fst [(c1, m1); (c2, m2); (c3, m3); (c4, m4)]) in
  (In m1 errors <-> c1 = true) /\ (In m2 errors <-> c2 = true) /\
  (In m3 errors <-> c3 = true) /\ (In m4 errors <-> c4 = true).
Proof.
  intros H12 H13 H14 H23 H24 H34.
  destruct c1, c2, c3, c4; simpl; intuition congruence.
Qed.

Lemma in_all_violations (r : string) (b : value) (a : string) :
  (In role_arn_error (all_violations r b a) <-> Py.contains r account_placeholder = true) /\
  (In bucket_name_error (all_violations r b a) <-> Py.eq_str b bucket_placeholder = true) /\
  (In identity_center_error (all_violations r b a)
     <-> String.eqb a identity_center_placeholder = true) /\
  (In arn_format_error (all_violations r b a)
     <-> negb (Py.startswith a identity_center_prefix) = true).
Proof. apply in_violations; discriminate. Qed.

(** ** Frame properties: what each part of the script leaves untouched *)

Section Frame.

Context {B : Type} (component : world -> B).

Lemma keeps_ret {A} (a : A) : keeps component (mret a).
Proof. intros w; reflexivity. Qed.

Lemma keeps_raise {A} (e : exn) : keeps component (raise e : M A).
Proof. intros w; reflexivity. Qed.

Lemma keeps_lift {A} (r : result A) : keeps component (lift r).
Proof. intros w; reflexivity. Qed.

Lemma keeps_path_exists (path : string) : keeps component (path_exists path).
Proof. intros w; reflexivity. Qed.

Lemma keeps_read_file (path : string) : keeps component (read_file path).
Proof. intros w; unfold read_file. now destruct (files w !! path). Qed.

Lemma keeps_bind {A C} (m : M A) (f : A -> M C) :
  keeps component m -> (forall a, keeps component (f a)) -> keeps component (m ≫= f).
Proof.
  intros Hm Hf w. rewrite run_bind. specialize (Hm w).
  destruct (m w) as [[a|e] w']; simpl in *; [|exact Hm].
  now rewrite Hf.
Qed.

Lemma keeps_try_except {A} (body : M A) (handler : exn -> M A) :
  keeps component body -> (forall e, keeps component (handler e)) ->
  keeps component (try_except body handler).
Proof.
  intros Hm Hh w. unfold try_except. specialize (Hm w).
  destruct (body w) as [[a|e] w']; simpl in *; [exact Hm|].
  now rewrite Hh.
Qed.

Lemma keeps_for_each {A} (xs : list A) (body : A -> M unit) :
  (forall x, keeps component (body x)) -> keeps component (for_each xs body).
Proof.
  intros Hb. induction xs as [|x xs IH]; simpl.
  - apply keeps_ret.
  - apply keeps_bind; [apply Hb | intros _; exact IH].
Qed.

End Frame.

Lemma print_keeps_calls (line : string) : keeps calls (print line).
Proof. intros w; reflexivity. Qed.

Lemma print_keeps_files (line : string) : keeps files (print line).
Proof. intros w; reflexivity. Qed.

Lemma invoke_keeps_files (client : service) (op : operation) (args : dict) :
  keeps files (invoke client op args).
Proof. intros w; reflexivity. Qed.

Ltac frame :=
  repeat first
    [ progress intros
    | apply keeps_ret | apply keeps_raise | apply keeps_lift
    | apply keeps_path_exists | apply keeps_read_file
    | apply print_keeps_calls | apply print_keeps_files | apply invoke_keeps_files
    | apply keeps_bind | apply keeps_try_except | apply keeps_for_each
    | match goal with
      | |- keeps _ (if ?b then _ else _) => destruct b
      | |- keeps _ (match ?x with _ => _ end) => destruct x
      end ].

(** The validator calls nothing and writes no file. *)
Lemma validate_config_keeps_calls (self : AmazonQBusiness) :
  keeps calls (validate_config self).
Proof. unfold validate_config. frame. Qed.

Lemma validate_config_keeps_files (self : AmazonQBusiness) :
  keeps files (validate_config self).
Proof. unfold validate_config. frame. Qed.

(** Loading the configuration and building the object call nothing and
    write no file. *)
Lemma init_keeps_calls (rt : runtime) (config_file : string) :
  keeps calls (init rt config_file).
Proof. unfold init, load_config. frame. Qed.

Lemma init_keeps_files (rt : runtime) (config_file : string) :
  keeps files (init rt config_file).
Proof. unfold init, load_config. frame. Qed.

(** The deployment writes no file. *)
Lemma deploy_keeps_files (rt : runtime) (self : AmazonQBusiness) :
  keeps files (deploy rt self).
Proof.
  unfold deploy, provision, create_application, create_index, create_data_source,
    start_data_source_sync.
  frame; apply validate_config_keeps_files.
Qed.

(** ** The provisioning sequence *)

#[local] Arguments Py.getitem : simpl never.
#[local] Arguments create_application_params : simpl never.
#[local] Arguments create_index_params : simpl never.
#[local] Arguments create_data_source_params : simpl never.

(** Case analysis on the next thing the script evaluates in [H]. *)
Ltac next_case H :=
  match type of H with
  | context [match ?x with _ => _ end] =>
      lazymatch x with
      | context [match _ with _ => _ end] => fail
      | _ => let E := fresh "E" in destruct x eqn:E
      end
  end.

Ltac run H :=
  repeat first
    [ progress (rewrite ?run_bind, ?print_run in H; unfold lift, invoke in H; simpl in H)
    | next_case H ].

Lemma provisioning_outcome (cfg : value) (log : list (call * result value))
    (r r' : result dict) :
  provisioning cfg log r' -> r' = r -> provisioning cfg log r.
Proof. now intros H <-. Qed.

(** Closes an equation between results with the equations gathered by [run]. *)
Ltac by_equations :=
  unfold application_request, index_request, data_source_request, identifier;
  simpl;
  repeat match goal with
         | E : _ = Ok _ |- _ => rewrite E; simpl
         | E : _ = Raise _ |- _ => rewrite E; simpl
         end;
  reflexivity.

Lemma provision_runs (rt : runtime) (self : AmazonQBusiness) (w w' : world)
    (r : result dict) :
  provision rt self w = (r, w') ->
  exists log, calls w' = calls w ++ log /\ provisioning (config self) log r.
Proof.
  intros H.
  unfold provision, create_application, create_index, create_data_source,
    start_data_source_sync in H.
  run H.
  all: injection H as <- <-; eexists; split;
    [ simpl; rewrite <- ?app_assoc; simpl; first [reflexivity | symmetry; apply app_nil_r]
    | eapply provisioning_outcome; [econstructor; by_equations | by_equations] ].
Qed.

#[local] Arguments provision : simpl never.
#[local] Arguments validate_config : simpl never.

(** ** The deployment

    [deploy] calls the service only when the validator found no error, and
    then its calls are those of the provisioning sequence. *)
Lemma deploy_runs (rt : runtime) (self : AmazonQBusiness) (w w' : world)
    (r : result dict) :
  deploy rt self w = (r, w') ->
  match validation_errors (config self) with
  | Raise e => r = Raise e /\ calls w' = calls w
  | Ok (_ :: _) => r = Raise validation_failed /\ calls w' = calls w
  | Ok [] => exists log, calls w' = calls w ++ log /\ provisioning (config self) log r
  end.
Proof.
  intros H. unfold deploy in H.
  rewrite run_bind, print_run, run_bind, print_run, run_bind in H.
  destruct (validation_errors (config self)) as [errors|e] eqn:Hv.
  - rewrite (validate_config_run _ _ _ Hv) in H.
    destruct errors as [|error errors]; simpl in H.
    + rewrite run_bind in H; simpl in H. unfold try_except in H.
      match type of H with
      | context [provision rt self ?w0] =>
          destruct (provision rt self w0) as [[resources|e] w1] eqn:Hp
      end;
        apply provision_runs in Hp as (log & Hcalls & Hrun); simpl in Hcalls.
      * injection H as <- <-. now exists log.
      * rewrite run_bind, print_run in H. injection H as <- <-. now exists log.
    + now injection H as <- <-.
  - rewrite (validate_config_raises _ _ _ Hv) in H. now injection H as <- <-.
Qed.

(** What a successful deployment returns. *)
Lemma deploy_resources (rt : runtime) (self : AmazonQBusiness) (w w' : world)
    (resources : dict) :
  deploy rt self w = (Ok resources, w') ->
  exists application_id index_id data_source_id execution_id,
    resources = resources_of application_id index_id data_source_id execution_id.
Proof.
  intros H%deploy_runs.
  destruct (validation_errors (config self)) as [[|error errors]|e];
    [| destruct H; discriminate | destruct H; discriminate].
  destruct H as (log & _ & Hrun). inversion Hrun as [| | | |? ? A ? ? I ? ? D a4 _ _ _ _ _ _ Hlog Hr].
  destruct (identifier "executionId" a4) as [E|e]; simpl in Hr; [|discriminate].
  injection Hr as <-. now exists A, I, D, E.
Qed.

(** The keyword arguments of the creation calls: which identifiers they
    carry. *)
Lemma application_request_identifiers (cfg : value) (p : dict) :
  application_request cfg = Ok p ->
  Py.dict_get p "applicationId" = None /\
  Py.dict_get p "indexId" = None /\
  Py.dict_get p "dataSourceId" = None /\
  Py.dict_get p "clientIdsForOIDC" = Some (VList []).
Proof.
  unfold application_request, create_application_params.
  destruct (Py.getitem cfg "application") as [app|e]; simpl; [|discriminate].
  repeat (match goal with
          | |- (Py.getitem app ?k ≫= _) = _ -> _ => destruct (Py.getitem app k); simpl
          end; [|discriminate]).
  intros [= <-]. now vm_compute.
Qed.

Lemma index_request_identifiers (cfg application_id : value) (p : dict) :
  index_request cfg application_id = Ok p ->
  Py.dict_get p "applicationId" = Some application_id.
Proof.
  unfold index_request, create_index_params.
  destruct (Py.getitem cfg "index") as [section|e]; simpl; [|discriminate].
  repeat (match goal with
          | |- (Py.getitem section ?k ≫= _) = _ -> _ => destruct (Py.getitem section k); simpl
          end; [|discriminate]).
  now intros [= <-].
Qed.

Lemma data_source_request_identifiers (cfg application_id index_id : value) (p : dict) :
  data_source_request cfg application_id index_id = Ok p ->
  Py.dict_get p "applicationId" = Some application_id /\
  Py.dict_get p "indexId" = Some index_id.
Proof.
  unfold data_source_request, create_data_source_params.
  destruct (Py.getitem cfg "dataSource") as [section|e]; simpl; [|discriminate].
  repeat (match goal with
          | |- (Py.getitem section ?k ≫= _) = _ -> _ => destruct (Py.getitem section k); simpl
          end; [|discriminate]).
  now intros [= <-].
Qed.

(** ** The entry point *)

Lemma main_runs (rt : runtime) (w : world) :
  main rt w =
    match init rt "config.json" w with
    | (Raise e, w1) => (1%Z, printed w1 [("Error: " ++ exn_str e)%string])
    | (Ok self, w1) =>
        match deploy rt self w1 with
        | (Raise e, w2) => (1%Z, printed w2 [("Error: " ++ exn_str e)%string])
        | (Ok resources, w2) =>
            (0%Z,
             {| files := <[output_file := json_dumps rt (VDict resources)]> (files w2);
                stdout := stdout w2 ++
                  [(String "010" "" ++ "Resource IDs saved to " ++ output_file)%string];
                calls := calls w2 |})
        end
    end.
Proof.
  unfold main, try_except. rewrite !run_bind.
  destruct (init rt "config.json" w) as [[self|e] w1]; [|reflexivity].
  rewrite run_bind.
  destruct (deploy rt self w1) as [[resources|e] w2]; [|reflexivity].
  rewrite run_bind. unfold open_w, write. simpl.
  rewrite lookup_insert_eq, insert_insert_eq. reflexivity.
Qed.

(** ** The configuration loader *)

Lemma path_exists_found (path text : string) (w : world) :
  files w !! path = Some text -> path_exists path w = (Ok true, w).
Proof. intros H. unfold path_exists. now rewrite H. Qed.

Lemma read_file_found (path text : string) (w : world) :
  files w !! path = Some text -> read_file path w = (Ok text, w).
Proof. intros H. unfold read_file. now rewrite H. Qed.

(** The loader on a document that parses to a dictionary lacking a section. *)
Lemma load_config_missing_section
    (rt : runtime) (config_file text : string) (items : dict) (section : string)
    (w : world) :
  files w !! config_file = Some text ->
  json_loads rt text = Ok (VDict items) ->
  first_absent items = Some section ->
  load_config rt config_file w =
    (Raise (Exception ("Error loading configuration: "
                         ++ "Missing required configuration section: " ++ section)%string),
     w).
Proof.
  intros Hfile Hparse Habsent.
  unfold load_config, try_except.
  unfold first_absent in Habsent. simpl in Habsent.
  repeat first
    [ rewrite (path_exists_found _ _ _ Hfile)
    | rewrite (read_file_found _ _ _ Hfile)
    | rewrite Hparse
    | rewrite run_bind
    | progress unfold lift
    | progress simpl ].
  destruct (Py.has_key items "aws"); simpl in *;
    [|injection Habsent as <-; reflexivity].
  destruct (Py.has_key items "application"); simpl in *;
    [|injection Habsent as <-; reflexivity].
  destruct (Py.has_key items "index"); simpl in *;
    [|injection Habsent as <-; reflexivity].
  destruct (Py.has_key items "dataSource"); simpl in *;
    [discriminate | injection Habsent as <-; reflexivity].
Qed.

(** * The claims of the specification *)

(** ** The configuration validator *)

(** C5, as stated, fails on the role ARN: the configuration [Sample.account_left]
    has a role ARN that is not the account marker itself, only contains it,
    and the check flags it. *)
Lemma role_arn_check_is_not_exact :
  role_arn_of Sample.account_left
    = Ok (VStr "arn:aws:iam::<YOUR-ACCOUNT>:role/QBusinessRole") /\
  "arn:aws:iam::<YOUR-ACCOUNT>:role/QBusinessRole"%string <> account_placeholder /\
  validation_errors Sample.account_left = Ok [role_arn_error].
Proof. repeat split; [discriminate]. Qed.

(** C5, amended: on a configuration whose three validated fields are
    strings, the role ARN check flags a violation exactly when the value
    contains the account marker; the bucket name check and the identity
    provider check exactly when the value equals the marker; the format
    check exactly when the identity provider ARN does not begin with
    [arn:aws:sso:::instance/]. *)
Theorem placeholder_checks_characterised (cfg : value) (r b a : string) :
  role_arn_of cfg = Ok (VStr r) ->
  bucket_name_of cfg = Ok (VStr b) ->
  identity_provider_arn_of cfg = Ok (VStr a) ->
  exists errors,
    validation_errors cfg = Ok errors /\
    (In role_arn_error errors <-> substring account_placeholder r) /\
    (In bucket_name_error errors <-> b = bucket_placeholder) /\
    (In identity_center_error errors <-> a = identity_center_placeholder) /\
    (In arn_format_error errors <-> ~ has_prefix identity_center_prefix a).
Proof.
  intros Hr Hb Ha. exists (all_violations r (VStr b) a).
  split; [now apply validation_errors_strings|].
  destruct (in_all_violations r (VStr b) a) as (H1 & H2 & H3 & H4).
  rewrite H1, H2, H3, H4, contains_spec, eq_str_true, String.eqb_eq, negb_true_iff.
  rewrite <- startswith_spec, not_true_iff_false.
  repeat split; congruence.
Qed.

Lemma placeholder_checks_characterised_witness :
  exists errors,
    validation_errors Sample.account_left = Ok errors /\
    (In role_arn_error errors
       <-> substring account_placeholder "arn:aws:iam::<YOUR-ACCOUNT>:role/QBusinessRole") /\
    (In bucket_name_error errors <-> "regulatory-docs"%string = bucket_placeholder) /\
    (In identity_center_error errors
       <-> "arn:aws:sso:::instance/ssoins-1234567890abcdef"%string
             = identity_center_placeholder) /\
    (In arn_format_error errors
       <-> ~ has_prefix identity_center_prefix
               "arn:aws:sso:::instance/ssoins-1234567890abcdef").
Proof.
  apply (placeholder_checks_characterised Sample.account_left
           "arn:aws:iam::<YOUR-ACCOUNT>:role/QBusinessRole" "regulatory-docs"
           "arn:aws:sso:::instance/ssoins-1234567890abcdef"); reflexivity.
Defined.

(** C7: when the role ARN does not trigger the account placeholder check,
    the bucket name is not the bucket placeholder, the identity provider
    ARN is not the identity centre placeholder and begins with
    [arn:aws:sso:::instance/], [validate_config] returns [True] (after
    printing that the validation passed). *)
Theorem validation_passes_on_replaced_placeholders
    (self : AmazonQBusiness) (r b : value) (a : string) (w : world) :
  role_arn_of (config self) = Ok r ->
  Py.contains_str r account_placeholder = Ok false ->
  bucket_name_of (config self) = Ok b ->
  b <> VStr bucket_placeholder ->
  identity_provider_arn_of (config self) = Ok (VStr a) ->
  a <> identity_center_placeholder ->
  has_prefix identity_center_prefix a ->
  validate_config self w = (Ok true, printed w ["Configuration validation passed"]).
Proof.
  intros Hr Hin Hb Hbucket Ha Hcentre Hprefix.
  apply eq_str_false in Hbucket. apply String.eqb_neq in Hcentre.
  apply startswith_spec in Hprefix.
  rewrite (validate_config_run self w []); [reflexivity|].
  rewrite (validation_errors_run _ _ _ _ _ Hr Hin Hb Ha).
  now rewrite Hbucket, Hcentre, Hprefix.
Qed.

Lemma validation_passes_on_replaced_placeholders_witness :
  validate_config (Self Sample.ready Sample.healthy) (boot ∅)
    = (Ok true, printed (boot ∅) ["Configuration validation passed"]).
Proof.
  apply (validation_passes_on_replaced_placeholders
           (Self Sample.ready Sample.healthy)
           (VStr "arn:aws:iam::123456789012:role/QBusinessRole")
           (VStr "regulatory-docs")
           "arn:aws:sso:::instance/ssoins-1234567890abcdef").
  - reflexivity.
  - reflexivity.
  - reflexivity.
  - discriminate.
  - reflexivity.
  - discriminate.
  - exists "ssoins-1234567890abcdef"%string. reflexivity.
Defined.

(** C6, as stated, fails: [Sample.bare] is a configuration that [load_config]
    accepts (it has the four sections), and on it [validate_config] raises
    a [KeyError] instead of returning a boolean. *)
Lemma validate_config_raises_on_loaded_configuration :
  load_config (Sample.python Sample.healthy) "config.json" (boot (Sample.disk Sample.bare))
    = (Ok Sample.bare,
       printed (boot (Sample.disk Sample.bare))
         ["Configuration loaded successfully from config.json"]) /\
  validate_config (Self Sample.bare Sample.healthy) (boot (Sample.disk Sample.bare))
    = (Raise (KeyError "roleArn"), boot (Sample.disk Sample.bare)).
Proof. split; vm_compute; reflexivity. Qed.

(** C6, amended: on a configuration whose role ARN and identity provider
    ARN are strings and whose bucket name is present, [validate_config]
    returns a boolean and raises nothing; it only prints, and the boolean
    is [False] exactly when some check found a violation. *)
Theorem validate_config_returns_boolean
    (self : AmazonQBusiness) (r a : string) (b : value) (w : world) :
  role_arn_of (config self) = Ok (VStr r) ->
  bucket_name_of (config self) = Ok b ->
  identity_provider_arn_of (config self) = Ok (VStr a) ->
  exists (valid : bool) (w' : world),
    validate_config self w = (Ok valid, w') /\
    files w' = files w /\ calls w' = calls w /\
    (valid = false <-> all_violations r b a <> []).
Proof.
  intros Hr Hb Ha.
  pose proof (validation_errors_strings _ _ _ _ Hr Hb Ha) as Herrors.
  exists (verdict (all_violations r b a)), (printed w (report (all_violations r b a))).
  split; [now apply validate_config_run|].
  repeat split; try discriminate.
  - now destruct (all_violations r b a).
  - destruct (all_violations r b a); [congruence | reflexivity].
Qed.

Lemma validate_config_returns_boolean_witness :
  exists (valid : bool) (w' : world),
    validate_config (Self Sample.untouched Sample.healthy) (boot ∅) = (Ok valid, w') /\
    files w' = files (boot ∅) /\ calls w' = calls (boot ∅) /\
    (valid = false <->
       all_violations "arn:aws:iam::<YOUR-ACCOUNT>:role/QBusinessRole"
         (VStr "<YOUR-S3-BUCKET-NAME>") "<YOUR-IAM-IDENTITY-CENTER-ARN>" <> []).
Proof.
  apply (validate_config_returns_boolean (Self Sample.untouched Sample.healthy));
    reflexivity.
Defined.

(** C8, as stated, fails: on [Sample.null_provider] the first two checks find
    a violation each, then the last check raises an [AttributeError] on the
    [null] identity provider: nothing is printed and [False] is not
    returned. *)
Lemma validate_config_can_stop_before_reporting :
  (role_arn ← role_arn_of Sample.null_provider;
   Py.contains_str role_arn account_placeholder) = Ok true /\
  (bucket ← bucket_name_of Sample.null_provider;
   Ok (Py.eq_str bucket bucket_placeholder)) = Ok true /\
  validate_config (Self Sample.null_provider Sample.healthy) (boot ∅)
    = (Raise (AttributeError "'NoneType' object has no attribute 'startswith'"), boot ∅).
Proof. repeat split. Qed.

(** C8, amended: on a configuration whose role ARN and identity provider
    ARN are strings and whose bucket name is present, [validate_config]
    evaluates all four checks and accumulates every violation found; when
    there is at least one it prints the heading and every accumulated
    message, in the order of the checks, and only then returns [False]. *)
Theorem validate_config_accumulates
    (self : AmazonQBusiness) (r a : string) (b : value) (w : world) :
  role_arn_of (config self) = Ok (VStr r) ->
  bucket_name_of (config self) = Ok b ->
  identity_provider_arn_of (config self) = Ok (VStr a) ->
  validation_errors (config self) = Ok (all_violations r b a) /\
  validate_config self w =
    match all_violations r b a with
    | [] => (Ok true, printed w ["Configuration validation passed"])
    | errors =>
        (Ok false,
         printed w ("Configuration validation errors:"
                      :: map (fun error => "  - " ++ error)%string errors))
    end.
Proof.
  intros Hr Hb Ha.
  pose proof (validation_errors_strings _ _ _ _ Hr Hb Ha) as Herrors.
  split; [exact Herrors|].
  rewrite (validate_config_run _ _ _ Herrors).
  now destruct (all_violations r b a).
Qed.

Lemma validate_config_accumulates_witness :
  validation_errors Sample.untouched
    = Ok [role_arn_error; bucket_name_error; identity_center_error; arn_format_error] /\
  validate_config (Self Sample.untouched Sample.healthy) (boot ∅)
    = (Ok false,
       printed (boot ∅)
         [ "Configuration validation errors:";
           ("  - " ++ role_arn_error)%string;
           ("  - " ++ bucket_name_error)%string;
           ("  - " ++ identity_center_error)%string;
           ("  - " ++ arn_format_error)%string ]).
Proof.
  apply (validate_config_accumulates (Self Sample.untouched Sample.healthy)
           "arn:aws:iam::<YOUR-ACCOUNT>:role/QBusinessRole"
           "<YOUR-IAM-IDENTITY-CENTER-ARN>" (VStr "<YOUR-S3-BUCKET-NAME>") (boot ∅));
    reflexivity.
Defined.

(** C3, as stated, fails: [Sample.role_only] is a configuration that
    [load_config] accepts and whose role ARN contains the account
    placeholder, and on it [validate_config] raises a [KeyError] on the
    next field: it does not return [False] and reports no error. *)
Lemma validate_config_raises_after_role_check :
  load_config (Sample.python Sample.healthy) "config.json"
      (boot (Sample.disk Sample.role_only))
    = (Ok Sample.role_only,
       printed (boot (Sample.disk Sample.role_only))
         ["Configuration loaded successfully from config.json"]) /\
  role_arn_of Sample.role_only
    = Ok (VStr "arn:aws:iam::<YOUR-ACCOUNT>:role/QBusinessRole") /\
  substring account_placeholder "arn:aws:iam::<YOUR-ACCOUNT>:role/QBusinessRole" /\
  validate_config (Self Sample.role_only Sample.healthy) (boot ∅)
    = (Raise (KeyError "configuration"), boot ∅).
Proof.
  repeat split; try (vm_compute; reflexivity).
  exists "arn:aws:iam::"%string, ":role/QBusinessRole"%string. reflexivity.
Qed.

(** C3, amended: when the role ARN is a string that contains the account
    placeholder, [deploy] raises without any remote call having been made;
    and when moreover the bucket name is present and the identity provider
    ARN is a string, [validate_config] returns [False] after reporting its
    errors, the role ARN message among them. *)
Theorem role_placeholder_blocks_deployment
    (rt : runtime) (self : AmazonQBusiness) (r : string) (w : world) :
  role_arn_of (config self) = Ok (VStr r) ->
  substring account_placeholder r ->
  (exists (e : exn) (w' : world),
     deploy rt self w = (Raise e, w') /\ calls w' = calls w) /\
  (forall (b : value) (a : string),
     bucket_name_of (config self) = Ok b ->
     identity_provider_arn_of (config self) = Ok (VStr a) ->
     exists errors,
       In role_arn_error errors /\
       validate_config self w =
         (Ok false,
          printed w ("Configuration validation errors:"
                       :: map (fun error => "  - " ++ error)%string errors))).
Proof.
  intros Hr Hin%contains_spec. split.
  - destruct (deploy rt self w) as [outcome w'] eqn:Hd. apply deploy_runs in Hd.
    destruct (validation_errors (config self)) as [errors|e] eqn:Hv.
    + pose proof (role_placeholder_rejected _ _ _ Hr Hin Hv) as Hmsg.
      destruct errors as [|error errors]; [contradiction|].
      destruct Hd as [-> Hcalls]. now exists validation_failed, w'.
    + destruct Hd as [-> Hcalls]. now exists e, w'.
  - intros b a Hb Ha.
    pose proof (validation_errors_strings _ _ _ _ Hr Hb Ha) as Hv.
    pose proof (role_placeholder_rejected _ _ _ Hr Hin Hv) as Hmsg.
    exists (all_violations r b a). split; [exact Hmsg|].
    rewrite (validate_config_run _ _ _ Hv).
    destruct (all_violations r b a); [contradiction | reflexivity].
Qed.

Lemma role_placeholder_blocks_deployment_witness :
  (exists (e : exn) (w' : world),
     deploy (Sample.python Sample.healthy) (Self Sample.account_left Sample.healthy) (boot ∅)
       = (Raise e, w') /\ calls w' = calls (boot ∅)) /\
  (forall (b : value) (a : string),
     bucket_name_of Sample.account_left = Ok b ->
     identity_provider_arn_of Sample.account_left = Ok (VStr a) ->
     exists errors,
       In role_arn_error errors /\
       validate_config (Self Sample.account_left Sample.healthy) (boot ∅) =
         (Ok false,
          printed (boot ∅)
            ("Configuration validation errors:"
               :: map (fun error => "  - " ++ error)%string errors))).
Proof.
  apply (role_placeholder_blocks_deployment (Sample.python Sample.healthy)
           (Self Sample.account_left Sample.healthy)
           "arn:aws:iam::<YOUR-ACCOUNT>:role/QBusinessRole" (boot ∅)).
  - reflexivity.
  - exists "arn:aws:iam::"%string, ":role/QBusinessRole"%string. reflexivity.
Defined.

(** ** The provisioning steps *)

(** C10: whatever the configuration holds, a call that [create_application]
    makes is a create-application request whose [clientIdsForOIDC] is the
    empty list; and when the application section has the seven fields the
    request is built from, that request is made, a [clientIdsForOIDC] of
    the configuration being ignored. *)
Theorem create_application_sends_no_oidc_clients
    (rt : runtime) (self : AmazonQBusiness) (w : world) :
  Forall (fun c => operation_of c = CreateApplication /\
                   Py.dict_get (kwargs c) "clientIdsForOIDC" = Some (VList []))
    (drop (length (calls w)) (requests (create_application rt self w).2)) /\
  (forall params : dict,
     application_request (config self) = Ok params ->
     requests (create_application rt self w).2
       = requests w ++ [Call CreateApplication params]).
Proof.
  assert (Hshape :
    (exists e, application_request (config self) = Raise e) /\
      requests (create_application rt self w).2 = requests w \/
    exists params, application_request (config self) = Ok params /\
      requests (create_application rt self w).2
        = requests w ++ [Call CreateApplication params]).
  { unfold application_request, create_application.
    rewrite run_bind, print_run, run_bind. unfold lift at 1.
    destruct (Py.getitem (config self) "application") as [app|e]; simpl;
      [|left; split; [now exists e | reflexivity]].
    rewrite run_bind. unfold lift at 1.
    destruct (create_application_params app) as [params|e]; simpl;
      [|left; split; [now exists e | reflexivity]].
    right. exists params. split; [reflexivity|].
    rewrite run_bind. unfold invoke at 1.
    destruct (qbusiness self _ _) as [response|e]; simpl.
    - rewrite run_bind. unfold lift at 1.
      destruct (Py.getitem response "applicationId"); simpl;
        unfold requests; simpl; now rewrite map_app.
    - unfold requests; simpl; now rewrite map_app. }
  destruct Hshape as [[[e He] Hsame] | (params & Hp & Hsent)].
  - split.
    + rewrite Hsame. unfold requests. rewrite <- (length_map fst), drop_all. constructor.
    + intros params Hp. congruence.
  - split.
    + rewrite Hsent. unfold requests at 1. rewrite <- (length_map fst).
      rewrite drop_app_length. constructor; [|constructor].
      split; [reflexivity|]. now apply application_request_identifiers in Hp.
    + intros params' Hp'. congruence.
Qed.

Lemma create_application_sends_no_oidc_clients_witness :
  Py.getpath Sample.ready ["application"; "clientIdsForOIDC"]
    = Ok (VList [VStr "oidc-client-1"]) /\
  exists params,
    Py.dict_get params "clientIdsForOIDC" = Some (VList []) /\
    requests (create_application (Sample.python Sample.healthy)
                (Self Sample.ready Sample.healthy) (boot ∅)).2
      = requests (boot ∅) ++ [Call CreateApplication params].
Proof.
  split; [reflexivity|].
  destruct (application_request Sample.ready) as [params|e] eqn:Hp; [|discriminate].
  exists params. split.
  - injection Hp as <-. reflexivity.
  - apply (create_application_sends_no_oidc_clients (Sample.python Sample.healthy)
             (Self Sample.ready Sample.healthy) (boot ∅)).
    exact Hp.
Defined.

(** C1: in a run of [deploy] on a fresh client in which the four remote
    calls return, in sequence, answers that carry the identifiers A1, I1,
    D1 and E1, exactly four calls are made, in the order create_application
    (with no identifier), create_index (with applicationId=A1),
    create_data_source (with applicationId=A1 and indexId=I1) and
    start_data_source_sync_job (with exactly applicationId=A1, indexId=I1
    and dataSourceId=D1), and [deploy] returns exactly the mapping of the
    four identifiers. *)
Theorem deploy_threads_identifiers
    (rt : runtime) (self : AmazonQBusiness) (fs : gmap string string) (out : list string)
    (outcome : result dict) (w' : world) (r1 r2 r3 r4 A1 I1 D1 E1 : value) :
  deploy rt self {| files := fs; stdout := out; calls := [] |} = (outcome, w') ->
  take 4 (answers w') = [Ok r1; Ok r2; Ok r3; Ok r4] ->
  Py.getitem r1 "applicationId" = Ok A1 ->
  Py.getitem r2 "indexId" = Ok I1 ->
  Py.getitem r3 "dataSourceId" = Ok D1 ->
  Py.getitem r4 "executionId" = Ok E1 ->
  exists p1 p2 p3 : dict,
    requests w' =
      [ Call CreateApplication p1;
        Call CreateIndex p2;
        Call CreateDataSource p3;
        Call StartDataSourceSyncJob
          [("applicationId", A1); ("indexId", I1); ("dataSourceId", D1)] ] /\
    (Py.dict_get p1 "applicationId" = None /\
     Py.dict_get p1 "indexId" = None /\
     Py.dict_get p1 "dataSourceId" = None) /\
    Py.dict_get p2 "applicationId" = Some A1 /\
    (Py.dict_get p3 "applicationId" = Some A1 /\ Py.dict_get p3 "indexId" = Some I1) /\
    outcome = Ok [ ("applicationId", A1); ("indexId", I1);
                   ("dataSourceId", D1); ("executionId", E1) ].
Proof.
  intros Hd Hanswers H1 H2 H3 H4. apply deploy_runs in Hd. unfold answers in Hanswers.
  destruct (validation_errors (config self)) as [[|error errors]|e];
    [| destruct Hd as [_ Hcalls]; simpl in Hcalls; rewrite Hcalls in Hanswers; discriminate ..].
  destruct Hd as (log & Hcalls & Hrun). simpl in Hcalls. rewrite Hcalls in Hanswers.
  unfold requests. rewrite Hcalls.
  destruct Hrun as [ | | | | p1 r1' A p2 r2' I p3 r3' D a4 Hp1 HA Hp2 HI Hp3 HD];
    try discriminate.
  injection Hanswers as <- <- <- ->.
  assert (A = A1) as -> by congruence.
  assert (I = I1) as -> by congruence.
  assert (D = D1) as -> by congruence.
  exists p1, p2, p3. split; [reflexivity|].
  apply application_request_identifiers in Hp1 as (? & ? & ? & _).
  apply index_request_identifiers in Hp2.
  apply data_source_request_identifiers in Hp3 as [? ?].
  repeat split; try assumption.
  unfold identifier; simpl. now rewrite H4.
Qed.

Lemma deploy_threads_identifiers_witness :
  exists p1 p2 p3 : dict,
    requests (deploy (Sample.python Sample.healthy)
                (Self Sample.ready Sample.healthy) (boot ∅)).2 =
      [ Call CreateApplication p1;
        Call CreateIndex p2;
        Call CreateDataSource p3;
        Call StartDataSourceSyncJob
          [("applicationId", VStr "A1"); ("indexId", VStr "I1");
           ("dataSourceId", VStr "D1")] ] /\
    (Py.dict_get p1 "applicationId" = None /\
     Py.dict_get p1 "indexId" = None /\
     Py.dict_get p1 "dataSourceId" = None) /\
    Py.dict_get p2 "applicationId" = Some (VStr "A1") /\
    (Py.dict_get p3 "applicationId" = Some (VStr "A1") /\
     Py.dict_get p3 "indexId" = Some (VStr "I1")) /\
    (deploy (Sample.python Sample.healthy)
       (Self Sample.ready Sample.healthy) (boot ∅)).1 =
      Ok [ ("applicationId", VStr "A1"); ("indexId", VStr "I1");
           ("dataSourceId", VStr "D1"); ("executionId", VStr "E1") ].
Proof.
  apply (deploy_threads_identifiers (Sample.python Sample.healthy)
           (Self Sample.ready Sample.healthy) ∅ []
           (deploy (Sample.python Sample.healthy)
              (Self Sample.ready Sample.healthy) (boot ∅)).1
           (deploy (Sample.python Sample.healthy)
              (Self Sample.ready Sample.healthy) (boot ∅)).2
           (VDict [("applicationId", VStr "A1");
                   ("ResponseMetadata", VDict [("HTTPStatusCode", VInt 200)])])
           (VDict [("indexId", VStr "I1");
                   ("ResponseMetadata", VDict [("HTTPStatusCode", VInt 200)])])
           (VDict [("dataSourceId", VStr "D1");
                   ("ResponseMetadata", VDict [("HTTPStatusCode", VInt 200)])])
           (VDict [("executionId", VStr "E1");
                   ("ResponseMetadata", VDict [("HTTPStatusCode", VInt 200)])])).
  - apply surjective_pairing.
  - vm_compute. reflexivity.
  - reflexivity.
  - reflexivity.
  - reflexivity.
  - reflexivity.
Defined.

(** ** The process *)

(** C2: in a run of [main] in which the third remote call raises, the first
    two calls have succeeded, the third is the creation of the data
    source, no fourth call is made (the synchronisation job is never
    started), no file is written and the exit status is 1. *)
Theorem data_source_failure_stops_deployment
    (rt : runtime) (fs : gmap string string) (status : Z) (w' : world) (e : exn) :
  main rt (boot fs) = (status, w') ->
  answers w' !! 2%nat = Some (Raise e) ->
  (exists p1 r1 p2 r2 p3,
     calls w' = [ (Call CreateApplication p1, Ok r1);
                  (Call CreateIndex p2, Ok r2);
                  (Call CreateDataSource p3, Raise e) ]) /\
  ~ In StartDataSourceSyncJob (map operation_of (requests w')) /\
  files w' = fs /\
  status = 1%Z.
Proof.
  intros Hm Hthird. rewrite main_runs in Hm. unfold answers, requests in *.
  pose proof (init_keeps_calls rt "config.json" (boot fs)) as Hic.
  pose proof (init_keeps_files rt "config.json" (boot fs)) as Hif.
  destruct (init rt "config.json" (boot fs)) as [[self|e0] w1]; simpl in Hic, Hif.
  2: { injection Hm as <- <-. simpl in Hthird. rewrite Hic in Hthird. discriminate. }
  pose proof (deploy_keeps_files rt self w1) as Hdf.
  destruct (deploy rt self w1) as [outcome w2] eqn:Hd; simpl in Hdf.
  apply deploy_runs in Hd.
  assert (Hlog : calls w' = calls w2 /\ (files w' = fs /\ status = 1%Z \/ exists x, outcome = Ok x)).
  { destruct outcome; injection Hm as <- <-; simpl; split; try reflexivity.
    - right; eauto.
    - left. split; [congruence | reflexivity]. }
  destruct Hlog as [Hcalls Hend]. rewrite Hcalls in *. clear Hm Hcalls.
  destruct (validation_errors (config self)) as [[|error errors]|e1];
    [| destruct Hd as [_ Hd]; rewrite Hd, Hic in Hthird; discriminate ..].
  destruct Hd as (log & Hd & Hrun). rewrite Hic in Hd; simpl in Hd. rewrite Hd in *.
  destruct Hrun as [ | | | p1 r1 A p2 r2 I p3 a3 e3 Hp1 HA Hp2 HI Hp3 HD
                     | p1 r1 A p2 r2 I p3 r3 D a4 Hp1 HA Hp2 HI Hp3 HD];
    try discriminate.
  injection Hthird as ->.
  destruct Hend as [[Hfiles Hstatus] | [x Hx]]; [|discriminate].
  split; [now exists p1, r1, p2, r2, p3|].
  split; [|now split].
  simpl. intros [H | [H | [H | []]]]; discriminate.
Qed.

Lemma data_source_failure_stops_deployment_witness :
  (exists p1 r1 p2 r2 p3,
     calls (main (Sample.python Sample.broken_data_source)
              (boot (Sample.disk Sample.ready))).2 =
       [ (Call CreateApplication p1, Ok r1);
         (Call CreateIndex p2, Ok r2);
         (Call CreateDataSource p3,
          Raise (ServiceError "An error occurred (AccessDeniedException) when calling the CreateDataSource operation")) ]) /\
  ~ In StartDataSourceSyncJob
      (map operation_of
         (requests (main (Sample.python Sample.broken_data_source)
                      (boot (Sample.disk Sample.ready))).2)) /\
  files (main (Sample.python Sample.broken_data_source)
           (boot (Sample.disk Sample.ready))).2 = Sample.disk Sample.ready /\
  (main (Sample.python Sample.broken_data_source)
     (boot (Sample.disk Sample.ready))).1 = 1%Z.
Proof.
  apply (data_source_failure_stops_deployment
           (Sample.python Sample.broken_data_source) (Sample.disk Sample.ready)).
  - apply surjective_pairing.
  - vm_compute. reflexivity.
Defined.

(** C4: when the configuration document lacks at least one of the four
    required sections, [load_config] fails with an error that names the
    first absent section in the order aws, application, index, dataSource;
    the process then prints that one error and exits with status 1: the
    object is never built, so neither [deploy] nor [validate_config] runs
    (nothing else is printed, no call is made, no file is written). *)
Theorem missing_section_fails_loading
    (rt : runtime) (fs : gmap string string) (text : string) (items : dict)
    (section : string) :
  fs !! "config.json" = Some text ->
  json_loads rt text = Ok (VDict items) ->
  first_absent items = Some section ->
  load_config rt "config.json" (boot fs) =
    (Raise (Exception ("Error loading configuration: "
                         ++ "Missing required configuration section: " ++ section)%string),
     boot fs) /\
  (exists e, init rt "config.json" (boot fs) = (Raise e, boot fs)) /\
  main rt (boot fs) =
    (1%Z,
     {| files := fs;
        stdout := [("Error: " ++ "Error loading configuration: "
                      ++ "Missing required configuration section: " ++ section)%string];
        calls := [] |}).
Proof.
  intros Hfile Hparse Habsent.
  pose proof (load_config_missing_section rt "config.json" text items section (boot fs)
                Hfile Hparse Habsent) as Hload.
  assert (Hinit : init rt "config.json" (boot fs) =
                    (Raise (Exception ("Error loading configuration: "
                         ++ "Missing required configuration section: " ++ section)%string),
                     boot fs)).
  { unfold init. rewrite run_bind, Hload. reflexivity. }
  split; [exact Hload|]. split; [eauto|].
  rewrite main_runs, Hinit. reflexivity.
Qed.

Lemma missing_section_fails_loading_witness :
  load_config (Sample.python Sample.healthy) "config.json"
      (boot (Sample.disk Sample.two_sections)) =
    (Raise (Exception ("Error loading configuration: "
                         ++ "Missing required configuration section: " ++ "index")%string),
     boot (Sample.disk Sample.two_sections)) /\
  (exists e, init (Sample.python Sample.healthy) "config.json"
               (boot (Sample.disk Sample.two_sections))
             = (Raise e, boot (Sample.disk Sample.two_sections))) /\
  main (Sample.python Sample.healthy) (boot (Sample.disk Sample.two_sections)) =
    (1%Z,
     {| files := Sample.disk Sample.two_sections;
        stdout := [("Error: " ++ "Error loading configuration: "
                      ++ "Missing required configuration section: " ++ "index")%string];
        calls := [] |}).
Proof.
  apply (missing_section_fails_loading (Sample.python Sample.healthy)
           (Sample.disk Sample.two_sections) (Sample.json_text Sample.two_sections)
           [ ("aws", VDict [("region", VStr "us-east-1")]);
             ("application", Sample.application_section "arn:aws:sso:::instance/ssoins-1") ]
           "index").
  - vm_compute. reflexivity.
  - vm_compute. reflexivity.
  - reflexivity.
Defined.

(** C9: when the deployment succeeds, [main] leaves in
    [deployment_output.json] exactly the text [json.dump] writes for the
    mapping of the four identifiers, whatever the file system held at that
    path before (nothing, or a file whose content is then gone); the other
    files are untouched and the exit status is 0. *)
Theorem main_overwrites_output
    (rt : runtime) (fs : gmap string string) (self : AmazonQBusiness) (w1 w2 : world)
    (resources : dict) :
  init rt "config.json" (boot fs) = (Ok self, w1) ->
  deploy rt self w1 = (Ok resources, w2) ->
  (exists application_id index_id data_source_id execution_id,
     resources = [ ("applicationId", application_id); ("indexId", index_id);
                   ("dataSourceId", data_source_id); ("executionId", execution_id) ]) /\
  main rt (boot fs) =
    (0%Z,
     {| files := <["deployment_output.json" := json_dumps rt (VDict resources)]> fs;
        stdout := stdout w2 ++
          [(String "010" "" ++ "Resource IDs saved to " ++ "deployment_output.json")%string];
        calls := calls w2 |}) /\
  files (main rt (boot fs)).2 !! "deployment_output.json"
    = Some (json_dumps rt (VDict resources)) /\
  (forall path, path <> "deployment_output.json" ->
     files (main rt (boot fs)).2 !! path = fs !! path).
Proof.
  intros Hinit Hdeploy.
  pose proof (init_keeps_files rt "config.json" (boot fs)) as Hif.
  pose proof (deploy_keeps_files rt self w1) as Hdf.
  rewrite Hinit in Hif. rewrite Hdeploy in Hdf. simpl in Hif, Hdf.
  assert (Hmain : main rt (boot fs) =
    (0%Z,
     {| files := <["deployment_output.json" := json_dumps rt (VDict resources)]> fs;
        stdout := stdout w2 ++
          [(String "010" "" ++ "Resource IDs saved to " ++ "deployment_output.json")%string];
        calls := calls w2 |})).
  { rewrite main_runs, Hinit, Hdeploy, Hdf, Hif. reflexivity. }
  split; [exact (deploy_resources _ _ _ _ _ Hdeploy)|].
  split; [exact Hmain|]. rewrite Hmain; simpl. split.
  - apply lookup_insert_eq.
  - intros path Hpath. now apply lookup_insert_ne.
Qed.

Lemma main_overwrites_output_witness :
  files (main (Sample.python Sample.healthy)
           (boot (<["deployment_output.json" := "left by an earlier run"]>
                    (Sample.disk Sample.ready)))).2 !! "deployment_output.json"
    = Some (Sample.json_dump ""
              (VDict [ ("applicationId", VStr "A1"); ("indexId", VStr "I1");
                       ("dataSourceId", VStr "D1"); ("executionId", VStr "E1") ])).
Proof.
  pose (rt := Sample.python Sample.healthy).
  pose (fs := <["deployment_output.json" := "left by an earlier run"]>
                (Sample.disk Sample.ready)).
  pose (built := init rt "config.json" (boot fs)).
  pose (self := Self Sample.ready Sample.healthy).
  apply (main_overwrites_output rt fs self built.2 (deploy rt self built.2).2
           [ ("applicationId", VStr "A1"); ("indexId", VStr "I1");
             ("dataSourceId", VStr "D1"); ("executionId", VStr "E1") ]).
  - vm_compute. reflexivity.
  - vm_compute. reflexivity.
Defined.

(** * Further properties of the script *)

(** ** The configuration loader *)

(** X1: when the configuration file does not exist, [load_config] raises a
    plain [Exception] (the [FileNotFoundError] it raises itself is caught by
    its own last handler) whose message names the file, and leaves the
    world as it was. *)
Theorem load_config_missing_file
    (rt : runtime) (config_file : string) (w : world) :
  files w !! config_file = None ->
  load_config rt config_file w =
    (Raise (Exception ("Error loading configuration: "
                         ++ "Configuration file '" ++ config_file ++ "' not found")%string),
     w).
Proof.
  intros Hfile. unfold load_config, try_except, path_exists.
  rewrite run_bind, Hfile. reflexivity.
Qed.

Lemma load_config_missing_file_witness :
  load_config (Sample.python Sample.healthy) "config.json" (boot ∅) =
    (Raise (Exception ("Error loading configuration: "
                         ++ "Configuration file '" ++ "config.json" ++ "' not found")%string),
     boot ∅).
Proof.
  apply (load_config_missing_file (Sample.python Sample.healthy) "config.json" (boot ∅)).
  reflexivity.
Defined.

(** X2: when the file exists and [json.load] raises a [JSONDecodeError],
    [load_config] raises a [ValueError] that quotes the parser's message,
    and not the [Exception] it raises for its other failures. *)
Theorem load_config_invalid_json
    (rt : runtime) (config_file text msg : string) (w : world) :
  files w !! config_file = Some text ->
  json_loads rt text = Raise (JSONDecodeError msg) ->
  load_config rt config_file w =
    (Raise (ValueError ("Invalid JSON in configuration file: " ++ msg)%string), w).
Proof.
  intros Hfile Hparse. unfold load_config, try_except.
  repeat first
    [ rewrite (path_exists_found _ _ _ Hfile)
    | rewrite (read_file_found _ _ _ Hfile)
    | rewrite Hparse
    | rewrite run_bind
    | progress unfold lift
    | progress simpl ].
  reflexivity.
Qed.

Lemma load_config_invalid_json_witness :
  load_config (Sample.python Sample.healthy) "config.json" (boot {[ "config.json" := "{" ]}) =
    (Raise (ValueError ("Invalid JSON in configuration file: "
                          ++ "Expecting value: line 1 column 1 (char 0)")%string),
     boot {[ "config.json" := "{" ]}).
Proof.
  apply (load_config_invalid_json (Sample.python Sample.healthy) "config.json" "{").
  - reflexivity.
  - reflexivity.
Defined.

(** X3: whatever goes wrong in [load_config], what it raises is either a
    [ValueError] that begins "Invalid JSON in configuration file: " or an
    [Exception] that begins "Error loading configuration: "; no other
    exception leaves it. *)
Theorem load_config_wraps_errors
    (rt : runtime) (config_file : string) (w w' : world) (e : exn) :
  load_config rt config_file w = (Raise e, w') ->
  (exists msg, e = ValueError ("Invalid JSON in configuration file: " ++ msg)%string) \/
  (exists msg, e = Exception ("Error loading configuration: " ++ msg)%string).
Proof.
  unfold load_config, try_except.
  match goal with
  | |- context [let (_, _) := ?body w in _] => destruct (body w) as [[cfg|e0] w0]
  | |- context [match ?body w with _ => _ end] => destruct (body w) as [[cfg|e0] w0]
  end; [discriminate|].
  destruct e0; intros [= <- <-]; eauto.
Qed.

Lemma load_config_wraps_errors_witness :
  (exists msg,
     Exception ("Error loading configuration: "
                  ++ "Configuration file '" ++ "config.json" ++ "' not found")%string
       = ValueError ("Invalid JSON in configuration file: " ++ msg)%string) \/
  (exists msg,
     Exception ("Error loading configuration: "
                  ++ "Configuration file '" ++ "config.json" ++ "' not found")%string
       = Exception ("Error loading configuration: " ++ msg)%string).
Proof.
  apply (load_config_wraps_errors (Sample.python Sample.healthy) "config.json"
           (boot ∅) (boot ∅)).
  reflexivity.
Defined.

(** X4: when [load_config] returns a configuration, the file exists, the
    configuration is what [json.load] made of its text, each of the four
    required sections passes the [in] test, and the only effect is the one
    line printed. *)
Theorem load_config_returns_checked
    (rt : runtime) (config_file : string) (w w' : world) (cfg : value) :
  load_config rt config_file w = (Ok cfg, w') ->
  exists text,
    files w !! config_file = Some text /\
    json_loads rt text = Ok cfg /\
    Forall (fun section => Py.contains_str cfg section = Ok true) required_sections /\
    w' = printed w [("Configuration loaded successfully from " ++ config_file)%string].
Proof.
  intros H. unfold load_config, try_except, path_exists, read_file in H.
  rewrite run_bind in H.
  destruct (files w !! config_file) as [text|] eqn:Hfile; simpl in H;
    [|discriminate].
  rewrite run_bind in H; simpl in H. rewrite run_bind, Hfile in H.
  rewrite run_bind in H. unfold lift at 1 in H.
  destruct (json_loads rt text) as [parsed|e] eqn:Hparse;
    [|destruct e; discriminate].
  exists text. split; [reflexivity|].
  simpl in H.
  run H; try (match type of H with (Raise _, _) = _ => discriminate end);
    try (destruct e; discriminate).
  all: try match goal with b : bool |- _ => destruct b; simpl in *; try discriminate end.
  all: injection H as <- <-.
  all: repeat match goal with
              | Hb : negb _ = false |- _ => apply negb_false_iff in Hb; subst
              end.
  all: split; [assumption|]; split; [|reflexivity].
  all: unfold required_sections; repeat (constructor; [assumption|]); constructor.
Qed.

Lemma load_config_returns_checked_witness :
  exists text,
    files (boot (Sample.disk Sample.bare)) !! "config.json" = Some text /\
    json_loads (Sample.python Sample.healthy) text = Ok Sample.bare /\
    Forall (fun section => Py.contains_str Sample.bare section = Ok true)
      required_sections /\
    printed (boot (Sample.disk Sample.bare))
        ["Configuration loaded successfully from config.json"]
      = printed (boot (Sample.disk Sample.bare))
          [("Configuration loaded successfully from " ++ "config.json")%string].
Proof.
  apply (load_config_returns_checked (Sample.python Sample.healthy) "config.json").
  vm_compute. reflexivity.
Defined.

(** X5: a document that is not an object never gives a deployment object.
    For a scalar the section test itself raises; a string or a list may
    even pass the section test (it is an [in] test), and then the reading
    of the region raises.  Either way [__init__] raises, and [main] exits
    with status 1 without a remote call or a file written. *)
Theorem init_rejects_non_object
    (rt : runtime) (fs : gmap string string) (text : string) (cfg : value) :
  fs !! "config.json" = Some text ->
  json_loads rt text = Ok cfg ->
  is_dict cfg = false ->
  (exists e w', init rt "config.json" (boot fs) = (Raise e, w')) /\
  (main rt (boot fs)).1 = 1%Z /\
  calls (main rt (boot fs)).2 = [] /\
  files (main rt (boot fs)).2 = fs.
Proof.
  intros Hfile Hparse Hshape.
  assert (Hinit : exists e w', init rt "config.json" (boot fs) = (Raise e, w')).
  { destruct (init rt "config.json" (boot fs)) as [[self|e] w'] eqn:Hinit; [|eauto].
    exfalso. unfold init in Hinit. rewrite run_bind in Hinit.
    destruct (load_config rt "config.json" (boot fs)) as [[loaded|e] w1] eqn:Hload;
      [|discriminate].
    apply load_config_returns_checked in Hload as (text' & Hfile' & Hparse' & _ & _).
    simpl in Hfile'. rewrite Hfile in Hfile'. injection Hfile' as <-.
    rewrite Hparse in Hparse'. injection Hparse' as <-.
    rewrite run_bind in Hinit. unfold lift at 1 in Hinit.
    destruct cfg; try discriminate; simpl in Hinit; discriminate. }
  split; [exact Hinit|]. destruct Hinit as (e & w' & Hinit).
  pose proof (init_keeps_calls rt "config.json" (boot fs)) as Hcalls.
  pose proof (init_keeps_files rt "config.json" (boot fs)) as Hfiles.
  rewrite Hinit in Hcalls, Hfiles. simpl in Hcalls, Hfiles.
  rewrite main_runs, Hinit. simpl. auto.
Qed.

Lemma init_rejects_non_object_witness :
  (exists e w',
     init (Edge.python [Edge.names_only] Sample.healthy) "config.json"
       (boot (Sample.disk Edge.names_only)) = (Raise e, w')) /\
  (main (Edge.python [Edge.names_only] Sample.healthy)
     (boot (Sample.disk Edge.names_only))).1 = 1%Z /\
  calls (main (Edge.python [Edge.names_only] Sample.healthy)
           (boot (Sample.disk Edge.names_only))).2 = [] /\
  files (main (Edge.python [Edge.names_only] Sample.healthy)
           (boot (Sample.disk Edge.names_only))).2 = Sample.disk Edge.names_only.
Proof.
  apply (init_rejects_non_object (Edge.python [Edge.names_only] Sample.healthy)
           (Sample.disk Edge.names_only) (Sample.json_text Edge.names_only)
           Edge.names_only).
  - vm_compute. reflexivity.
  - vm_compute. reflexivity.
  - reflexivity.
Defined.

(** ** The provisioning steps, one by one

    Each step in closed form: the arguments it builds, the one call it
    makes, the identifier it reads from the answer. *)

(** The shape the four steps share, once the arguments are built: the
    call, the reading of the identifier, the line printed. *)
Lemma call_and_read (rt : runtime) (client : service) (op : operation) (params : dict)
    (key done : string) (w : world) :
  (response ← invoke client op params;
   id ← lift (Py.getitem response key);
   print (done ++ str rt id)%string;;
   mret id) w =
    let request := Call op params in
    let answer := client (requests w) request in
    let w1 := {| files := files w; stdout := stdout w;
                 calls := calls w ++ [(request, answer)] |} in
    match identifier key answer with
    | Raise e => (Raise e, w1)
    | Ok id => (Ok id, printed w1 [(done ++ str rt id)%string])
    end.
Proof.
  rewrite run_bind. unfold invoke at 1, identifier. cbv zeta.
  destruct (client (requests w) (Call op params)) as [response|e]; simpl; [|reflexivity].
  rewrite run_bind. unfold lift at 1.
  destruct (Py.getitem response key) as [id|e]; simpl; [|reflexivity].
  rewrite run_bind, print_run. reflexivity.
Qed.

Lemma create_application_run (rt : runtime) (self : AmazonQBusiness) (w : world) :
  create_application rt self w =
    let w0 := printed w ["Creating Amazon Q Business application..."] in
    match application_request (config self) with
    | Raise e => (Raise e, w0)
    | Ok params =>
        let request := Call CreateApplication params in
        let answer := qbusiness self (requests w) request in
        let w1 := {| files := files w0; stdout := stdout w0;
                     calls := calls w ++ [(request, answer)] |} in
        match identifier "applicationId" answer with
        | Raise e => (Raise e, w1)
        | Ok application_id =>
            (Ok application_id,
             printed w1 [("Application created with ID: " ++ str rt application_id)%string])
        end
    end.
Proof.
  unfold create_application, application_request. cbv zeta.
  rewrite run_bind, print_run, run_bind. unfold lift at 1.
  destruct (Py.getitem (config self) "application") as [section|e]; simpl; [|reflexivity].
  rewrite run_bind. unfold lift at 1.
  match goal with
  | |- context [match ?params with Ok _ => _ | Raise _ => _ end] =>
      destruct params as [params'|e]; simpl; [|reflexivity]
  end.
  rewrite call_and_read. reflexivity.
Qed.

Lemma create_index_run (rt : runtime) (self : AmazonQBusiness) (application_id : value)
    (w : world) :
  create_index rt self application_id w =
    let w0 := printed w ["Creating index..."] in
    match index_request (config self) application_id with
    | Raise e => (Raise e, w0)
    | Ok params =>
        let request := Call CreateIndex params in
        let answer := qbusiness self (requests w) request in
        let w1 := {| files := files w0; stdout := stdout w0;
                     calls := calls w ++ [(request, answer)] |} in
        match identifier "indexId" answer with
        | Raise e => (Raise e, w1)
        | Ok index_id =>
            (Ok index_id, printed w1 [("Index created with ID: " ++ str rt index_id)%string])
        end
    end.
Proof.
  unfold create_index, index_request. cbv zeta.
  rewrite run_bind, print_run, run_bind. unfold lift at 1.
  destruct (Py.getitem (config self) "index") as [section|e]; simpl; [|reflexivity].
  rewrite run_bind. unfold lift at 1.
  match goal with
  | |- context [match ?params with Ok _ => _ | Raise _ => _ end] =>
      destruct params as [params'|e]; simpl; [|reflexivity]
  end.
  rewrite call_and_read. reflexivity.
Qed.

Lemma create_data_source_run (rt : runtime) (self : AmazonQBusiness)
    (application_id index_id : value) (w : world) :
  create_data_source rt self application_id index_id w =
    let w0 := printed w ["Creating S3 data source..."] in
    match data_source_request (config self) application_id index_id with
    | Raise e => (Raise e, w0)
    | Ok params =>
        let request := Call CreateDataSource params in
        let answer := qbusiness self (requests w) request in
        let w1 := {| files := files w0; stdout := stdout w0;
                     calls := calls w ++ [(request, answer)] |} in
        match identifier "dataSourceId" answer with
        | Raise e => (Raise e, w1)
        | Ok data_source_id =>
            (Ok data_source_id,
             printed w1 [("Data source created with ID: " ++ str rt data_source_id)%string])
        end
    end.
Proof.
  unfold create_data_source, data_source_request. cbv zeta.
  rewrite run_bind, print_run, run_bind. unfold lift at 1.
  destruct (Py.getitem (config self) "dataSource") as [section|e]; simpl; [|reflexivity].
  rewrite run_bind. unfold lift at 1.
  match goal with
  | |- context [match ?params with Ok _ => _ | Raise _ => _ end] =>
      destruct params as [params'|e]; simpl; [|reflexivity]
  end.
  rewrite call_and_read. reflexivity.
Qed.

Lemma start_data_source_sync_run (rt : runtime) (self : AmazonQBusiness)
    (application_id index_id data_source_id : value) (w : world) :
  start_data_source_sync rt self application_id index_id data_source_id w =
    let w0 := printed w ["Starting data source synchronization..."] in
    let request :=
      Call StartDataSourceSyncJob
        [ ("applicationId", application_id); ("indexId", index_id);
          ("dataSourceId", data_source_id) ] in
    let answer := qbusiness self (requests w) request in
    let w1 := {| files := files w0; stdout := stdout w0;
                 calls := calls w ++ [(request, answer)] |} in
    match identifier "executionId" answer with
    | Raise e => (Raise e, w1)
    | Ok execution_id =>
        (Ok execution_id,
         printed w1 [("Sync job started with execution ID: " ++ str rt execution_id)%string])
    end.
Proof.
  unfold start_data_source_sync. cbv zeta.
  rewrite run_bind, print_run, call_and_read. reflexivity.
Qed.

(** X6: [start_data_source_sync] always makes exactly one call, whose
    arguments are the three identifiers it was given and nothing from the
    configuration; what it returns is the [executionId] of the answer, and
    what it raises is what the call or the reading of that key raised. *)
Theorem start_data_source_sync_calls_once
    (rt : runtime) (self : AmazonQBusiness)
    (application_id index_id data_source_id : value) (w : world) :
  let request :=
    Call StartDataSourceSyncJob
      [ ("applicationId", application_id); ("indexId", index_id);
        ("dataSourceId", data_source_id) ] in
  let run := start_data_source_sync rt self application_id index_id data_source_id w in
  calls run.2 = calls w ++ [(request, qbusiness self (requests w) request)] /\
  run.1 = identifier "executionId" (qbusiness self (requests w) request) /\
  files run.2 = files w.
Proof.
  cbv zeta. rewrite start_data_source_sync_run. cbv zeta.
  destruct (identifier "executionId" _); simpl; auto.
Qed.

(** A section that lacks one of the fields a request is built from makes
    the building of the request raise a [KeyError] on the first such field. *)
Lemma getitem_present (items : dict) (k : string) :
  Py.has_key items k = true -> exists x, Py.getitem (VDict items) k = Ok x.
Proof.
  unfold Py.getitem, Py.has_key. destruct (Py.dict_get items k); [eauto | discriminate].
Qed.

Lemma getitem_absent (items : dict) (k : string) :
  Py.has_key items k = false -> Py.getitem (VDict items) k = Raise (KeyError k).
Proof.
  unfold Py.getitem, Py.has_key. now destruct (Py.dict_get items k).
Qed.

Ltac first_missing_field H :=
  unfold first_missing in H; simpl in H;
  repeat match goal with
         | |- (Py.getitem (VDict ?items) ?k ≫= _) = _ =>
             let E := fresh "E" in
             destruct (Py.has_key items k) eqn:E; simpl in H;
             [ destruct (getitem_present _ _ E) as [? ->]; simpl
             | rewrite (getitem_absent _ _ E); simpl; now injection H as <- ]
         end;
  discriminate.

Lemma create_application_params_missing (items : dict) (field : string) :
  first_missing application_fields items = Some field ->
  create_application_params (VDict items) = Raise (KeyError field).
Proof. intros H. unfold create_application_params. first_missing_field H. Qed.

Lemma create_index_params_missing (application_id : value) (items : dict) (field : string) :
  first_missing index_fields items = Some field ->
  create_index_params application_id (VDict items) = Raise (KeyError field).
Proof. intros H. unfold create_index_params. first_missing_field H. Qed.

Lemma create_data_source_params_missing (application_id index_id : value) (items : dict)
    (field : string) :
  first_missing data_source_fields items = Some field ->
  create_data_source_params application_id index_id (VDict items) = Raise (KeyError field).
Proof. intros H. unfold create_data_source_params. first_missing_field H. Qed.

(** X7: when the application section lacks one of the seven fields the
    request is built from, [create_application] raises a [KeyError] naming
    the first one missing, in the order the source reads them, after its
    first line is printed and without any call to the service. *)
Theorem create_application_missing_field
    (rt : runtime) (self : AmazonQBusiness) (items : dict) (field : string) (w : world) :
  Py.getitem (config self) "application" = Ok (VDict items) ->
  first_missing application_fields items = Some field ->
  create_application rt self w =
    (Raise (KeyError field), printed w ["Creating Amazon Q Business application..."]).
Proof.
  intros Hsection Hmissing. rewrite create_application_run. cbv zeta.
  unfold application_request. rewrite Hsection. simpl.
  now rewrite (create_application_params_missing _ _ Hmissing).
Qed.

Lemma create_application_missing_field_witness :
  create_application (Sample.python Sample.healthy)
      (Self Edge.no_description Sample.healthy) (boot ∅) =
    (Raise (KeyError "description"),
     printed (boot ∅) ["Creating Amazon Q Business application..."]).
Proof.
  apply (create_application_missing_field (Sample.python Sample.healthy)
           (Self Edge.no_description Sample.healthy)
           [("displayName", VStr "Regulatory docs")] "description" (boot ∅)).
  - reflexivity.
  - reflexivity.
Defined.

(** ** The deployment as a whole *)

(** X8: whatever the service answers, the operations [deploy] calls on a
    fresh client are a prefix of create_application, create_index,
    create_data_source, start_data_source_sync_job: at most four calls, none
    repeated (no retry), none out of order, none skipped. *)
Theorem deploy_calls_in_order
    (rt : runtime) (self : AmazonQBusiness) (fs : gmap string string) (out : list string) :
  map operation_of
      (requests (deploy rt self {| files := fs; stdout := out; calls := [] |}).2)
    `prefix_of` call_order.
Proof.
  destruct (deploy rt self _) as [outcome w'] eqn:Hd. apply deploy_runs in Hd.
  unfold requests, call_order. simpl in *.
  destruct (validation_errors (config self)) as [[|error errors]|e];
    [| destruct Hd as [_ ->]; apply prefix_nil ..].
  destruct Hd as (log & -> & Hrun).
  destruct Hrun; simpl; repeat apply prefix_cons; first [apply prefix_nil | reflexivity].
Qed.

(** X9: [deploy] calls the service only after the validator has found no
    error: a run that made a call is a run on a configuration that is
    valid. *)
Theorem deploy_calls_only_when_valid
    (rt : runtime) (self : AmazonQBusiness) (w : world) :
  calls (deploy rt self w).2 <> calls w ->
  validation_errors (config self) = Ok [].
Proof.
  intros Hcalls. destruct (deploy rt self w) as [outcome w'] eqn:Hd.
  apply deploy_runs in Hd. simpl in Hcalls.
  destruct (validation_errors (config self)) as [[|error errors]|e];
    [reflexivity | destruct Hd; contradiction ..].
Qed.

Lemma deploy_calls_only_when_valid_witness :
  validation_errors Sample.ready = Ok [].
Proof.
  apply (deploy_calls_only_when_valid (Sample.python Sample.healthy)
           (Self Sample.ready Sample.healthy) (boot ∅)).
  vm_compute. discriminate.
Defined.

(** X10: when the validator reports errors, [deploy] raises the
    [ValueError] of a failed validation after exactly these lines: its
    heading, the rule, the heading of the errors and one line per error.
    The exception is raised outside the [try], so no "Deployment failed"
    line is printed, and no call is made. *)
Theorem deploy_rejects_reported_errors
    (rt : runtime) (self : AmazonQBusiness) (error : string) (errors : list string)
    (w : world) :
  validation_errors (config self) = Ok (error :: errors) ->
  deploy rt self w =
    (Raise validation_failed,
     printed w
       ([ "Starting Amazon Q Business deployment..."; banner;
          "Configuration validation errors:" ]
          ++ map (fun error => "  - " ++ error)%string (error :: errors))).
Proof.
  intros Hv. unfold deploy.
  rewrite run_bind, print_run, run_bind, print_run, run_bind.
  rewrite (validate_config_run _ _ _ Hv). simpl.
  rewrite !printed_printed. reflexivity.
Qed.

Lemma deploy_rejects_reported_errors_witness :
  deploy (Sample.python Sample.healthy) (Self Sample.account_left Sample.healthy) (boot ∅) =
    (Raise validation_failed,
     printed (boot ∅)
       ([ "Starting Amazon Q Business deployment..."; banner;
          "Configuration validation errors:" ]
          ++ map (fun error => "  - " ++ error)%string (role_arn_error :: []))).
Proof.
  apply (deploy_rejects_reported_errors (Sample.python Sample.healthy)
           (Self Sample.account_left Sample.healthy) role_arn_error [] (boot ∅)).
  reflexivity.
Defined.

(** Once the validator has passed, an exception of [deploy] is one that the
    provisioning raised, and the last line printed reports it. *)
Lemma deploy_failure_reported (rt : runtime) (self : AmazonQBusiness) (w w' : world)
    (e : exn) :
  validation_errors (config self) = Ok [] ->
  deploy rt self w = (Raise e, w') ->
  exists w1, w' = printed w1 [("Deployment failed: " ++ exn_str e)%string].
Proof.
  intros Hv H. unfold deploy in H.
  rewrite run_bind, print_run, run_bind, print_run, run_bind in H.
  rewrite (validate_config_run _ _ _ Hv) in H. simpl in H.
  rewrite run_bind in H; simpl in H. unfold try_except in H.
  match type of H with
  | context [provision rt self ?w0] =>
      destruct (provision rt self w0) as [[resources|e1] w1]
  end; [discriminate|].
  rewrite run_bind, print_run in H. injection H as <- <-. now exists w1.
Qed.

(** The exception of the last answer is the exception of the run. *)
Lemma provisioning_last_answer (cfg : value) (log : list (call * result value))
    (outcome : result dict) (e : exn) :
  provisioning cfg log outcome ->
  last (map snd log) = Some (Raise e) ->
  outcome = Raise e.
Proof.
  intros Hrun Hlast. destruct Hrun; simpl in Hlast; try discriminate;
    injection Hlast as ->; unfold identifier in *; simpl in *; congruence.
Qed.

(** X11: a service error is passed on as it is.  In a run of [main] whose
    last remote call raised [e], the lines "Deployment failed: e" and
    "Error: e" end the output, the exit status is 1 and no file is
    written; nothing is retried and nothing is undone. *)
Theorem service_error_ends_the_run
    (rt : runtime) (fs : gmap string string) (status : Z) (w' : world) (e : exn) :
  main rt (boot fs) = (status, w') ->
  last (answers w') = Some (Raise e) ->
  status = 1%Z /\
  files w' = fs /\
  exists earlier,
    stdout w' = earlier ++ [ ("Deployment failed: " ++ exn_str e)%string;
                             ("Error: " ++ exn_str e)%string ].
Proof.
  intros Hm Hlast. rewrite main_runs in Hm. unfold answers in Hlast.
  pose proof (init_keeps_calls rt "config.json" (boot fs)) as Hic.
  pose proof (init_keeps_files rt "config.json" (boot fs)) as Hif.
  destruct (init rt "config.json" (boot fs)) as [[self|e0] w1]; simpl in Hic, Hif.
  2: { injection Hm as <- <-. simpl in Hlast. rewrite Hic in Hlast. discriminate. }
  pose proof (deploy_keeps_files rt self w1) as Hdf.
  destruct (deploy rt self w1) as [outcome w2] eqn:Hd; simpl in Hdf.
  pose proof (deploy_runs _ _ _ _ _ Hd) as Hruns.
  assert (Hcalls : calls w' = calls w2) by (destruct outcome; now injection Hm as <- <-).
  rewrite Hcalls in Hlast.
  destruct (validation_errors (config self)) as [[|error errors]|e1] eqn:Hv;
    [| destruct Hruns as [_ Hruns]; rewrite Hruns, Hic in Hlast; discriminate ..].
  destruct Hruns as (log & Hlog & Hrun). rewrite Hic in Hlog; simpl in Hlog.
  rewrite Hlog in Hlast.
  pose proof (provisioning_last_answer _ _ _ _ Hrun Hlast) as ->.
  destruct (deploy_failure_reported _ _ _ _ _ Hv Hd) as [w0 ->].
  injection Hm as <- <-. simpl in *.
  repeat split; [congruence|].
  exists (stdout w0). now rewrite <- app_assoc.
Qed.

Lemma service_error_ends_the_run_witness :
  (main (Sample.python Edge.down) (boot (Sample.disk Sample.ready))).1 = 1%Z /\
  files (main (Sample.python Edge.down) (boot (Sample.disk Sample.ready))).2
    = Sample.disk Sample.ready /\
  exists earlier,
    stdout (main (Sample.python Edge.down) (boot (Sample.disk Sample.ready))).2 =
      earlier ++
      [ ("Deployment failed: "
           ++ exn_str (ServiceError "Could not connect to the endpoint URL"))%string;
        ("Error: " ++ exn_str (ServiceError "Could not connect to the endpoint URL"))%string ].
Proof.
  apply (service_error_ends_the_run (Sample.python Edge.down) (Sample.disk Sample.ready)).
  - apply surjective_pairing.
  - vm_compute. reflexivity.
Defined.

(** X12: no clean-up after a late failure.  When the first call has
    returned an application identifier and the index section lacks one of
    its fields, [deploy] raises a [KeyError] naming the first field missing
    and the log holds that one successful call and nothing else: the
    application stays allocated. *)
Theorem missing_index_field_leaves_application
    (rt : runtime) (self : AmazonQBusiness) (fs : gmap string string) (out : list string)
    (outcome : result dict) (w' : world) (r1 application_id : value) (items : dict)
    (field : string) :
  deploy rt self {| files := fs; stdout := out; calls := [] |} = (outcome, w') ->
  answers w' !! 0%nat = Some (Ok r1) ->
  Py.getitem r1 "applicationId" = Ok application_id ->
  Py.getitem (config self) "index" = Ok (VDict items) ->
  first_missing index_fields items = Some field ->
  outcome = Raise (KeyError field) /\
  exists p1, calls w' = [(Call CreateApplication p1, Ok r1)].
Proof.
  intros Hd Hfirst Hid Hsection Hmissing. apply deploy_runs in Hd. unfold answers in Hfirst.
  assert (Hrequest : forall id, index_request (config self) id = Raise (KeyError field)).
  { intros id. unfold index_request. rewrite Hsection. simpl.
    now apply create_index_params_missing. }
  destruct (validation_errors (config self)) as [[|error errors]|e];
    [| destruct Hd as [_ Hd]; simpl in Hd; rewrite Hd in Hfirst; discriminate ..].
  destruct Hd as (log & Hlog & Hrun). simpl in Hlog. rewrite Hlog in *.
  destruct Hrun; simpl in Hfirst; try discriminate; injection Hfirst as ->;
    try (rewrite Hrequest in *; discriminate).
  unfold identifier in *. simpl in *. rewrite Hid in *. simpl in *.
  rewrite Hrequest in *. split; [congruence | eauto].
Qed.

Lemma missing_index_field_leaves_application_witness :
  (deploy (Sample.python Sample.healthy) (Self Edge.empty_index Sample.healthy) (boot ∅)).1
    = Raise (KeyError "displayName") /\
  exists p1,
    calls (deploy (Sample.python Sample.healthy)
             (Self Edge.empty_index Sample.healthy) (boot ∅)).2 =
      [ (Call CreateApplication p1,
         Ok (VDict [ ("applicationId", VStr "A1");
                     ("ResponseMetadata", VDict [("HTTPStatusCode", VInt 200)]) ])) ].
Proof.
  apply (missing_index_field_leaves_application (Sample.python Sample.healthy)
           (Self Edge.empty_index Sample.healthy) ∅ []
           (deploy (Sample.python Sample.healthy)
              (Self Edge.empty_index Sample.healthy) (boot ∅)).1
           (deploy (Sample.python Sample.healthy)
              (Self Edge.empty_index Sample.healthy) (boot ∅)).2
           (VDict [ ("applicationId", VStr "A1");
                    ("ResponseMetadata", VDict [("HTTPStatusCode", VInt 200)]) ])
           (VStr "A1") [] "displayName").
  - apply surjective_pairing.
  - vm_compute. reflexivity.
  - reflexivity.
  - reflexivity.
  - reflexivity.
Defined.

(** X13: an answer without its identifier stops the run.  When the first
    call returns an answer from which [applicationId] cannot be read,
    [deploy] raises what that reading raised, and that call is the only
    one made. *)
Theorem answer_without_identifier_stops
    (rt : runtime) (self : AmazonQBusiness) (fs : gmap string string) (out : list string)
    (outcome : result dict) (w' : world) (r1 : value) (e : exn) :
  deploy rt self {| files := fs; stdout := out; calls := [] |} = (outcome, w') ->
  answers w' !! 0%nat = Some (Ok r1) ->
  Py.getitem r1 "applicationId" = Raise e ->
  outcome = Raise e /\
  exists p1, calls w' = [(Call CreateApplication p1, Ok r1)].
Proof.
  intros Hd Hfirst Hid. apply deploy_runs in Hd. unfold answers in Hfirst.
  destruct (validation_errors (config self)) as [[|error errors]|e0];
    [| destruct Hd as [_ Hd]; simpl in Hd; rewrite Hd in Hfirst; discriminate ..].
  destruct Hd as (log & Hlog & Hrun). simpl in Hlog. rewrite Hlog in *.
  destruct Hrun; simpl in Hfirst; try discriminate; injection Hfirst as ->;
    try congruence.
  unfold identifier in *. simpl in *. rewrite Hid in *. simpl in *.
  split; [congruence | eauto].
Qed.

Lemma answer_without_identifier_stops_witness :
  (deploy (Sample.python Edge.forgetful) (Self Sample.ready Edge.forgetful) (boot ∅)).1
    = Raise (KeyError "applicationId") /\
  exists p1,
    calls (deploy (Sample.python Edge.forgetful)
             (Self Sample.ready Edge.forgetful) (boot ∅)).2 =
      [ (Call CreateApplication p1,
         Ok (VDict [("ResponseMetadata", VDict [("HTTPStatusCode", VInt 200)])])) ].
Proof.
  apply (answer_without_identifier_stops (Sample.python Edge.forgetful)
           (Self Sample.ready Edge.forgetful) ∅ []
           (deploy (Sample.python Edge.forgetful)
              (Self Sample.ready Edge.forgetful) (boot ∅)).1
           (deploy (Sample.python Edge.forgetful)
              (Self Sample.ready Edge.forgetful) (boot ∅)).2
           (VDict [("ResponseMetadata", VDict [("HTTPStatusCode", VInt 200)])])
           (KeyError "applicationId")).
  - apply surjective_pairing.
  - vm_compute. reflexivity.
  - reflexivity.
Defined.




(** ** More on the validator *)

(** Whenever the four checks complete, the three fields were read, the
    role ARN supported [in], the identity provider ARN was a string, and
    the errors are the messages of the checks that flagged. *)
Lemma validation_errors_inv (cfg : value) (errors : list string) :
  validation_errors cfg = Ok errors ->
  exists (r b : value) (a : string) (flagged : bool),
    role_arn_of cfg = Ok r /\
    Py.contains_str r account_placeholder = Ok flagged /\
    bucket_name_of cfg = Ok b /\
    identity_provider_arn_of cfg = Ok (VStr a) /\
    errors =
      map snd
        (List.filter fst
           [ (flagged, role_arn_error);
             (Py.eq_str b bucket_placeholder, bucket_name_error);
             (String.eqb a identity_center_placeholder, identity_center_error);
             (negb (Py.startswith a identity_center_prefix), arn_format_error) ]).
Proof.
  intros H. unfold validation_errors in H.
  destruct (role_arn_of cfg) as [r|e]; simpl in H; [|discriminate].
  destruct (Py.contains_str r account_placeholder) as [flagged|e] eqn:Hin; simpl in H;
    [|discriminate].
  destruct (bucket_name_of cfg) as [b|e]; simpl in H; [|discriminate].
  destruct (identity_provider_arn_of cfg) as [arn|e]; simpl in H; [|discriminate].
  destruct (Py.startswith_method arn identity_center_prefix) as [well_formed|e] eqn:Hsw;
    simpl in H; [|discriminate].
  injection H as <-.
  destruct arn as [| | | |a| |]; unfold Py.startswith_method in Hsw;
    try discriminate Hsw.
  assert (well_formed = Py.startswith a identity_center_prefix) as -> by congruence.
  exists r, b, a, flagged. do 4 (split; [first [assumption | reflexivity]|]).
  change (Py.eq_str (VStr a) identity_center_placeholder)
    with (String.eqb a identity_center_placeholder).
  destruct flagged, (Py.eq_str b bucket_placeholder),
    (String.eqb a identity_center_placeholder),
    (Py.startswith a identity_center_prefix); reflexivity.
Qed.

(** X15: an identity provider ARN left at its placeholder is reported
    twice: the placeholder does not begin with [arn:aws:sso:::instance/],
    so whenever the placeholder message is among the errors the format
    message is too. *)
Theorem placeholder_arn_is_also_malformed (cfg : value) (errors : list string) :
  validation_errors cfg = Ok errors ->
  In identity_center_error errors ->
  In arn_format_error errors.
Proof.
  intros (r & b & a & flagged & _ & _ & _ & _ & ->)%validation_errors_inv.
  destruct (in_violations flagged (Py.eq_str b bucket_placeholder)
              (String.eqb a identity_center_placeholder)
              (negb (Py.startswith a identity_center_prefix))
              role_arn_error bucket_name_error identity_center_error arn_format_error)
    as (_ & _ & H3 & H4); try discriminate.
  cbv zeta in H3, H4. rewrite H3, H4. intros ->%String.eqb_eq. reflexivity.
Qed.

Lemma placeholder_arn_is_also_malformed_witness :
  In arn_format_error
    [role_arn_error; bucket_name_error; identity_center_error; arn_format_error].
Proof.
  apply (placeholder_arn_is_also_malformed Sample.untouched).
  - reflexivity.
  - simpl. tauto.
Defined.

(** X16: the errors the validator collects are always a subsequence of
    the four messages in the order of the checks: at most four, none twice,
    never out of order. *)
Theorem validation_errors_in_check_order (cfg : value) (errors : list string) :
  validation_errors cfg = Ok errors ->
  errors `sublist_of`
    [role_arn_error; bucket_name_error; identity_center_error; arn_format_error].
Proof.
  intros (r & b & a & flagged & _ & _ & _ & _ & ->)%validation_errors_inv.
  destruct flagged, (Py.eq_str b bucket_placeholder),
    (String.eqb a identity_center_placeholder),
    (Py.startswith a identity_center_prefix); simpl;
    repeat first [apply sublist_nil | apply sublist_skip; [] | apply sublist_cons];
    repeat constructor.
Qed.

Lemma validation_errors_in_check_order_witness :
  [role_arn_error] `sublist_of`
    [role_arn_error; bucket_name_error; identity_center_error; arn_format_error].
Proof.
  apply (validation_errors_in_check_order Sample.account_left). reflexivity.
Defined.

(** X17: a role ARN that is neither a string, a list nor a dictionary (a
    number, a boolean, [null]) makes the first check raise a [TypeError]:
    [validate_config] raises it before printing anything, and [deploy]
    passes it on after its two heading lines, without any call. *)
Theorem scalar_role_arn_raises
    (rt : runtime) (self : AmazonQBusiness) (r : value) (w : world) :
  role_arn_of (config self) = Ok r ->
  is_container r = false ->
  exists msg,
    validate_config self w = (Raise (TypeError msg), w) /\
    deploy rt self w =
      (Raise (TypeError msg),
       printed w ["Starting Amazon Q Business deployment..."; banner]).
Proof.
  intros Hr Hscalar.
  assert (Hv : exists msg, validation_errors (config self) = Raise (TypeError msg)).
  { unfold validation_errors. rewrite Hr. simpl.
    destruct r; try discriminate; simpl; eauto. }
  destruct Hv as [msg Hv]. exists msg.
  split; [now apply validate_config_raises|].
  unfold deploy. rewrite run_bind, print_run, run_bind, print_run, run_bind.
  rewrite (validate_config_raises _ _ _ Hv). now rewrite printed_printed.
Qed.

Lemma scalar_role_arn_raises_witness :
  exists msg,
    validate_config (Self Edge.null_role Sample.healthy) (boot ∅)
      = (Raise (TypeError msg), boot ∅) /\
    deploy (Sample.python Sample.healthy) (Self Edge.null_role Sample.healthy) (boot ∅) =
      (Raise (TypeError msg),
       printed (boot ∅) ["Starting Amazon Q Business deployment..."; banner]).
Proof.
  apply (scalar_role_arn_raises (Sample.python Sample.healthy)
           (Self Edge.null_role Sample.healthy) VNone (boot ∅)).
  - reflexivity.
  - reflexivity.
Defined.

(** X18: loading and validating stay local.  Building the object and
    validating the configuration make no remote call and write no file,
    whether they return or raise; and [deploy] itself writes no file (the
    output file is the business of [main] alone). *)
Theorem loading_and_validation_stay_local
    (rt : runtime) (config_file : string) (self : AmazonQBusiness) (w : world) :
  calls (init rt config_file w).2 = calls w /\
  files (init rt config_file w).2 = files w /\
  calls (validate_config self w).2 = calls w /\
  files (validate_config self w).2 = files w /\
  files (deploy rt self w).2 = files w.
Proof.
  repeat split.
  - apply init_keeps_calls.
  - apply init_keeps_files.
  - apply validate_config_keeps_calls.
  - apply validate_config_keeps_files.
  - apply deploy_keeps_files.
Qed.

(** The loader on a document that parses to a dictionary with the four
    sections. *)
Lemma load_config_complete
    (rt : runtime) (config_file text : string) (items : dict) (w : world) :
  files w !! config_file = Some text ->
  json_loads rt text = Ok (VDict items) ->
  first_absent items = None ->
  load_config rt config_file w =
    (Ok (VDict items),
     printed w [("Configuration loaded successfully from " ++ config_file)%string]).
Proof.
  intros Hfile Hparse Habsent.
  unfold load_config, try_except.
  unfold first_absent in Habsent. simpl in Habsent.
  repeat first
    [ rewrite (path_exists_found _ _ _ Hfile)
    | rewrite (read_file_found _ _ _ Hfile)
    | rewrite Hparse
    | rewrite run_bind
    | progress unfold lift
    | progress simpl ].
  destruct (Py.has_key items "aws"); simpl in *; [|discriminate].
  destruct (Py.has_key items "application"); simpl in *; [|discriminate].
  destruct (Py.has_key items "index"); simpl in *; [|discriminate].
  destruct (Py.has_key items "dataSource"); simpl in *; [|discriminate].
  reflexivity.
Qed.

(** X19: the four sections are all the loader asks for.  When the document
    has them but the region cannot be read ([aws] is not a dictionary, or
    has no [region]), the loader still reports success, then [__init__]
    raises: [main] prints the success notice, then the error, and exits
    with status 1 without a remote call or a file written. *)
Theorem unreadable_region_after_loading
    (rt : runtime) (fs : gmap string string) (text : string) (items : dict) (e : exn) :
  fs !! "config.json" = Some text ->
  json_loads rt text = Ok (VDict items) ->
  first_absent items = None ->
  Py.getpath (VDict items) ["aws"; "region"] = Raise e ->
  main rt (boot fs) =
    (1%Z,
     {| files := fs;
        stdout := [ ("Configuration loaded successfully from " ++ "config.json")%string;
                    ("Error: " ++ exn_str e)%string ];
        calls := [] |}).
Proof.
  intros Hfile Hparse Habsent Hregion.
  rewrite main_runs. unfold init. rewrite run_bind.
  rewrite (load_config_complete rt "config.json" text items (boot fs) Hfile Hparse Habsent).
  rewrite run_bind. unfold lift at 1. rewrite Hregion. reflexivity.
Qed.

Lemma unreadable_region_after_loading_witness :
  main (Edge.python [Edge.no_region] Sample.healthy) (boot (Sample.disk Edge.no_region)) =
    (1%Z,
     {| files := Sample.disk Edge.no_region;
        stdout := [ ("Configuration loaded successfully from " ++ "config.json")%string;
                    ("Error: " ++ exn_str (KeyError "region"))%string ];
        calls := [] |}).
Proof.
  apply (unreadable_region_after_loading (Edge.python [Edge.no_region] Sample.healthy)
           (Sample.disk Edge.no_region) (Sample.json_text Edge.no_region)
           [ ("aws", VDict []); ("application", VDict []);
             ("index", VDict []); ("dataSource", VDict []) ]
           (KeyError "region")).
  - vm_compute. reflexivity.
  - vm_compute. reflexivity.
  - reflexivity.
  - reflexivity.
Defined.
